(** * SANswTools: the text parsers and the zone command generator of [main.py]

    A shallow embedding of [parse_aliases_from_txt],
    [parse_switchshow_from_txt] and [generate_brocade_zone_commands], with
    the string primitives of Python they call.

    Text is modelled as [string] over 8-bit [ascii] characters; the character
    classes ([str.isspace], [str.isdigit], [str.lower]) are Python's on the
    ASCII range, which is the repertoire of Fabric OS command output.
    Dictionaries are [gmap string string]. *)

From Stdlib Require Import Ascii String List Bool Arith Lia OrdersEx Sorted.
From stdpp Require Import gmap strings list fin_maps.
Import ListNotations.

Local Open Scope string_scope.
Local Open Scope list_scope.

(** ** Python string primitives *)

Module Py.

Definition code (c : ascii) : nat := nat_of_ascii c.

Definition between (lo hi : nat) (c : ascii) : bool :=
  (lo <=? code c)%nat && (code c <=? hi)%nat.

(** [str.isspace] on one ASCII character: TAB, LF, VT, FF, CR, the four
    separators FS, GS, RS, US, and the space. *)
Definition isspace (c : ascii) : bool :=
  between 9 13 c || between 28 31 c || (code c =? 32)%nat.

(** A decimal digit ["0"] .. ["9"]. *)
Definition isdigit_char (c : ascii) : bool := between 48 57 c.

Definition isupper_char (c : ascii) : bool := between 65 90 c.

Definition lower_char (c : ascii) : ascii :=
  if isupper_char c then ascii_of_nat (code c + 32) else c.

Definition upper_char (c : ascii) : ascii :=
  if between 97 122 c then ascii_of_nat (code c - 32) else c.

(** [s.lower()] and [s.upper()] *)
Fixpoint lower (s : string) : string :=
  match s with
  | EmptyString => EmptyString
  | String c t => String (lower_char c) (lower t)
  end.

Fixpoint upper (s : string) : string :=
  match s with
  | EmptyString => EmptyString
  | String c t => String (upper_char c) (upper t)
  end.

Definition is_empty (s : string) : bool :=
  match s with EmptyString => true | String _ _ => false end.

(** Truthiness of a [str]: the empty string is falsy. *)
Definition truthy (s : string) : bool := negb (is_empty s).

Fixpoint lstrip (s : string) : string :=
  match s with
  | EmptyString => EmptyString
  | String c t => if isspace c then lstrip t else s
  end.

Fixpoint rstrip (s : string) : string :=
  match s with
  | EmptyString => EmptyString
  | String c t =>
      let t' := rstrip t in
      if isspace c && is_empty t' then EmptyString else String c t'
  end.

(** [s.strip()] *)
Definition strip (s : string) : string := rstrip (lstrip s).

(** [s.startswith(p)] *)
Fixpoint startswith (s p : string) : bool :=
  match p, s with
  | EmptyString, _ => true
  | String _ _, EmptyString => false
  | String a p', String b s' => Ascii.eqb a b && startswith s' p'
  end.

(** [sub in s] *)
Fixpoint contains (sub s : string) : bool :=
  startswith s sub ||
  match s with
  | EmptyString => false
  | String _ t => contains sub t
  end.

(** [s.split(sep, 1)] for a one-character separator: the text before the
    first [sep] and the text after it, or [s] alone when it has none. *)
Fixpoint split_once (sep : ascii) (s : string) : list string :=
  match s with
  | EmptyString => [EmptyString]
  | String c t =>
      if Ascii.eqb c sep then [EmptyString; t]
      else match split_once sep t with
           | h :: rest => String c h :: rest
           | [] => [String c EmptyString]
           end
  end.

(** [s.split()]: the maximal runs of non-whitespace characters.  [cur]
    holds the token being read. *)
Fixpoint split_ws_from (cur : string) (s : string) : list string :=
  match s with
  | EmptyString => if is_empty cur then [] else [cur]
  | String c t =>
      if isspace c
      then (if is_empty cur then split_ws_from EmptyString t
            else cur :: split_ws_from EmptyString t)
      else split_ws_from (cur +:+ String c EmptyString) t
  end.

Definition split (s : string) : list string := split_ws_from EmptyString s.

Fixpoint all_chars (p : ascii -> bool) (s : string) : bool :=
  match s with
  | EmptyString => true
  | String c t => p c && all_chars p t
  end.

(** [s.isdigit()]: at least one character, and all of them digits. *)
Definition isdigit (s : string) : bool :=
  truthy s && all_chars isdigit_char s.

(** [sep.join(items)] *)
Fixpoint join (sep : string) (items : list string) : string :=
  match items with
  | [] => EmptyString
  | [x] => x
  | x :: rest => x +:+ sep +:+ join sep rest
  end.

(** [s.split(sep)] for a one-character separator: the pieces between the
    occurrences of [sep], empty pieces included. *)
Fixpoint split_on (sep : ascii) (s : string) : list string :=
  match s with
  | EmptyString => [EmptyString]
  | String c t =>
      if Ascii.eqb c sep then EmptyString :: split_on sep t
      else match split_on sep t with
           | h :: rest => String c h :: rest
           | [] => [String c EmptyString]
           end
  end.

End Py.

(** ** The fragment of [re] the WWPN pattern uses *)

Module Re.

Inductive regex : Type :=
| Class (p : ascii -> bool)          (* a bracket expression [...] *)
| Lit (c : ascii)                    (* a literal character *)
| Seq (r1 r2 : regex)                (* r1 r2 *)
| Rep (n : nat) (r : regex).         (* r{n} *)

(** The prefix of [s] that [r] matches and what follows it.  Without
    alternation or open-ended repetition a pattern of this fragment matches
    at most one prefix, so there is nothing to backtrack over. *)
Fixpoint match_prefix (r : regex) (s : string) : option (string * string) :=
  match r with
  | Class p =>
      match s with
      | String c t => if p c then Some (String c EmptyString, t) else None
      | EmptyString => None
      end
  | Lit a =>
      match s with
      | String c t => if Ascii.eqb c a then Some (String c EmptyString, t) else None
      | EmptyString => None
      end
  | Seq r1 r2 =>
      match match_prefix r1 s with
      | Some (m1, t) =>
          match match_prefix r2 t with
          | Some (m2, u) => Some (m1 +:+ m2, u)
          | None => None
          end
      | None => None
      end
  | Rep n r1 =>
      (fix rep (k : nat) (s : string) : option (string * string) :=
         match k with
         | O => Some (EmptyString, s)
         | S k' =>
             match match_prefix r1 s with
             | Some (m1, t) =>
                 match rep k' t with
                 | Some (m2, u) => Some (m1 +:+ m2, u)
                 | None => None
                 end
             | None => None
             end
         end) n s
  end.

(** [pattern.search(s)] followed by [.group(0)]: the match at the leftmost
    position that has one, [None] when no position has. *)
Fixpoint search (r : regex) (s : string) : option string :=
  match match_prefix r s with
  | Some (m, _) => Some m
  | None =>
      match s with
      | EmptyString => None
      | String _ t => search r t
      end
  end.

End Re.

(** [[0-9a-f]]: the character class of the source pattern holds the digits
    and the lowercase letters a..f only. *)
Definition hex_class (c : ascii) : bool :=
  Py.between 48 57 c || Py.between 97 102 c.

(** [re.compile(r'([0-9a-f]{2}:){7}[0-9a-f]{2}')], compiled without flags. *)
Definition wwpn_regex : Re.regex :=
  Re.Seq (Re.Rep 7 (Re.Seq (Re.Rep 2 (Re.Class hex_class)) (Re.Lit ":")))
         (Re.Rep 2 (Re.Class hex_class)).

(** The WWPN matcher as both parsers use it: [wwpn_regex.search(line)], and
    on a match [match.group(0).lower()]. *)
Definition wwpn_match (line : string) : option string :=
  match Re.search wwpn_regex line with
  | Some m => Some (Py.lower m)
  | None => None
  end.

(** ** Files *)

(** The exceptions the parsers tell apart: [FileNotFoundError] and any other
    [Exception]. *)
Inductive exn : Type :=
| FileNotFoundError
| OtherException (what : string).

(** What [open(file_path)] and the iteration over the file give: [open]
    raises, or the file delivers [lines] and then ends ([None]) or raises
    ([Some e], an I/O fault or a decoding error further into the file). *)
Inductive file : Type :=
| OpenFails (e : exn)
| Reads (lines : list string) (fault : option exn).

(** The messages written to [sys.stderr]. *)
Inductive message : Type :=
| AliasParseWarning (e : exn)          (* "警告：解析既有 alias 時發生錯誤: {e}" *)
| FileNotFoundMessage (path : string)  (* "錯誤：找不到檔案 '{file_path}'" *)
| ReadOrParseError (e : exn).          (* "讀取或解析 TXT 檔案時發生錯誤：{e}" *)

(** ** [parse_aliases_from_txt] *)

(** The loop's variables: the dictionary [alias_map] and [last_alias_name]. *)
Record alias_state : Type := AliasState {
  alias_map : gmap string string;
  last_alias_name : option string
}.

Definition alias_init : alias_state :=
  {| alias_map := ∅; last_alias_name := None |}.

(** [elif last_alias_name:] holds for a name that is set and not empty. *)
Definition pending (o : option string) : option string :=
  match o with
  | Some n => if Py.truthy n then Some n else None
  | None => None
  end.

(** One iteration of [for line in f]. *)
Definition alias_body (st : alias_state) (line : string) : alias_state :=
  let clean_line := Py.strip line in
  if Py.startswith clean_line "alias:" then
    match Py.split_once ":" clean_line with
    | _ :: p1 :: _ =>
        {| alias_map := alias_map st; last_alias_name := Some (Py.strip p1) |}
    | _ => st
    end
  else
    match pending (last_alias_name st) with
    | Some name =>
        match wwpn_match clean_line with
        | Some w =>
            {| alias_map := <[w := name]> (alias_map st); last_alias_name := None |}
        | None => st
        end
    | None => st
    end.

Definition alias_loop (st : alias_state) (lines : list string) : alias_state :=
  fold_left alias_body lines st.

(** The whole function: the dictionary returned and what went to stderr.
    [alias_map] is created before the [try], filled in place by the loop and
    returned after the [except], so an exception leaves in it what the lines
    read before it put there. *)
Definition parse_aliases_from_txt (f : file)
  : gmap string string * list message :=
  match f with
  | OpenFails e => (∅, [AliasParseWarning e])
  | Reads lines fault =>
      (alias_map (alias_loop alias_init lines),
       match fault with
       | Some e => [AliasParseWarning e]
       | None => []
       end)
  end.

(** ** [parse_switchshow_from_txt] *)

(** One row of the frame: the dictionary appended to [port_data], with its
    keys ['Port Index'], ['Alias'], ['WWPN'] and ['Zone Name']. *)
Record PortRecord : Type := mkPortRecord {
  Port_Index : string;
  Alias : string;
  WWPN : string;
  Zone_Name : string
}.

(** A [pd.DataFrame] built from a list of such dictionaries: its rows, in
    order. *)
Definition DataFrame : Type := list PortRecord.

(** [d.get(k, fallback)] *)
Definition dict_get (d : gmap string string) (k fallback : string) : string :=
  default fallback (d !! k).

(** How an iteration of the loop ends: it goes on to the next line (also
    through [continue]) or leaves the loop through [break]. *)
Inductive flow : Type := Next | Break.

Record switchshow_state : Type := SwitchshowState {
  in_switchshow_section : bool;
  port_data : list PortRecord
}.

Definition switchshow_init : switchshow_state :=
  {| in_switchshow_section := false; port_data := [] |}.

Section Switchshow.

Variables existing_aliases existing_zones : gmap string string.

(** The row a candidate line gives: lines 147 to 155, [None] when the
    guard on [columns] fails. *)
Definition port_row (line m : string) : option PortRecord :=
  let wwpn := Py.lower m in
  let columns := Py.split line in
  if (1 <? length columns)%nat && Py.isdigit (hd EmptyString columns) then
    let port_index := hd EmptyString columns in
    let alias_name := dict_get existing_aliases wwpn ("Port_" +:+ port_index) in
    let zone_name := dict_get existing_zones alias_name EmptyString in
    Some {| Port_Index := port_index; Alias := alias_name;
            WWPN := wwpn; Zone_Name := zone_name |}
  else None.

(** One iteration of [for line in f]. *)
Definition switchshow_body (st : switchshow_state) (raw : string)
  : flow * switchshow_state :=
  let line := Py.strip raw in
  if Py.startswith line "Index Port Address" then
    (Next, {| in_switchshow_section := true; port_data := port_data st |})
  else if negb (in_switchshow_section st) then (Next, st)
  else if Py.contains "admin>" line then
    (Break, {| in_switchshow_section := false; port_data := port_data st |})
  else
    match Re.search wwpn_regex line with
    | Some m =>
        if Py.contains "F-Port" line && Py.contains "Online" line then
          match port_row line m with
          | Some row =>
              (Next, {| in_switchshow_section := in_switchshow_section st;
                        port_data := port_data st ++ [row] |})
          | None => (Next, st)
          end
        else (Next, st)
    | None => (Next, st)
    end.

Fixpoint switchshow_loop (st : switchshow_state) (lines : list string)
  : flow * switchshow_state :=
  match lines with
  | [] => (Next, st)
  | raw :: rest =>
      match switchshow_body st raw with
      | (Break, st') => (Break, st')
      | (Next, st') => switchshow_loop st' rest
      end
  end.

(** [pd.DataFrame(port_data) if port_data else None] *)
Definition frame_or_none (rows : list PortRecord) : option DataFrame :=
  match rows with
  | [] => None
  | _ :: _ => Some rows
  end.

(** The two [except] clauses: each prints its message and returns [None]. *)
Definition switchshow_report (file_path : string) (e : exn) : message :=
  match e with
  | FileNotFoundError => FileNotFoundMessage file_path
  | OtherException _ => ReadOrParseError e
  end.

(** The whole function: the value returned and what went to stderr.  After
    a [break] the rest of the file is not read, so a fault that lies
    behind the delivered lines is met only when the loop runs to their end. *)
Definition parse_switchshow_from_txt (file_path : string) (f : file)
  : option DataFrame * list message :=
  match f with
  | OpenFails e => (None, [switchshow_report file_path e])
  | Reads lines fault =>
      match switchshow_loop switchshow_init lines with
      | (Break, st) => (frame_or_none (port_data st), [])
      | (Next, st) =>
          match fault with
          | Some e => (None, [switchshow_report file_path e])
          | None => (frame_or_none (port_data st), [])
          end
      end
  end.

End Switchshow.

(** ** [generate_brocade_zone_commands] *)

Definition dquote : string := String "034"%char EmptyString.

(** Keys in ascending order without repetition: where [k] goes in such a
    list.  Python orders [str] by code point, character by character, a
    proper prefix first; that is [String_as_OT.compare]. *)
Fixpoint insert_key (k : string) (l : list string) : list string :=
  match l with
  | [] => [k]
  | h :: t =>
      match String_as_OT.compare k h with
      | Lt => k :: h :: t
      | Eq => h :: t
      | Gt => h :: insert_key k t
      end
  end.

Definition sorted_keys (ks : list string) : list string :=
  fold_right insert_key [] ks.

(** [df.groupby('Zone Name')] as the loop iterates it.  pandas groups with
    [sort=True] unless told otherwise: the groups come in ascending order of
    their key, and each holds its rows in the order of the frame. *)
Definition groupby_zone_name (df : DataFrame) : list (string * DataFrame) :=
  map (fun k => (k, List.filter (fun r => String.eqb (Zone_Name r) k) df))
      (sorted_keys (map Zone_Name df)).

(** [f'zonecreate "{zone_name}", "{members_str}"'] *)
Definition zonecreate (zone_name : string) (group : DataFrame) : string :=
  let members := map Alias group in
  let members_str := Py.join ";" members in
  "zonecreate " +:+ dquote +:+ zone_name +:+ dquote +:+ ", "
    +:+ dquote +:+ members_str +:+ dquote.

(** The rows kept by [notna() & (!= '')]; a [string] is never NaN. *)
Definition zoned (config_df : DataFrame) : DataFrame :=
  List.filter (fun r => Py.truthy (Zone_Name r)) config_df.

Definition generate_brocade_zone_commands (config_df : DataFrame) : list string :=
  let zoned_df := zoned config_df in
  match zoned_df with
  | [] => []
  | _ :: _ =>
      map (fun g => zonecreate (fst g) (snd g)) (groupby_zone_name zoned_df)
  end.

(** The ordering the specification describes, for comparison: the groups in
    the order in which their zone names first occur in the records. *)
Definition first_seen_keys (ks : list string) : list string :=
  fold_left (fun acc k => if existsb (String.eqb k) acc then acc else acc ++ [k])
            ks [].

Definition zone_commands_first_seen (config_df : DataFrame) : list string :=
  let zoned_df := zoned config_df in
  map (fun k => zonecreate k (List.filter (fun r => String.eqb (Zone_Name r) k) zoned_df))
      (first_seen_keys (map Zone_Name zoned_df)).

(** ** [parse_zones_from_txt] *)

(** The loop's variables: the dictionary [alias_to_zone_map],
    [current_zone_name] and [in_defined_config]. *)
Record zone_state : Type := ZoneState {
  alias_to_zone_map : gmap string string;
  current_zone_name : option string;
  in_defined_config : bool
}.

Definition zone_init : zone_state :=
  {| alias_to_zone_map := ∅; current_zone_name := None;
     in_defined_config := false |}.

(** [[member.strip() for member in clean_line.split(';') if member.strip()]] *)
Definition zone_members (clean_line : string) : list string :=
  map Py.strip
      (List.filter (fun member => Py.truthy (Py.strip member))
                   (Py.split_on ";" clean_line)).

(** [for member_alias in members: alias_to_zone_map[member_alias] = zone] *)
Definition assign_members (zone : string) (members : list string)
  (m : gmap string string) : gmap string string :=
  fold_left (fun acc member_alias => <[member_alias := zone]> acc) members m.

(** One iteration of [for line in f]. *)
Definition zone_body (st : zone_state) (line : string) : zone_state :=
  let clean_line := Py.strip line in
  if Py.startswith clean_line "Defined configuration:" then
    {| alias_to_zone_map := alias_to_zone_map st;
       current_zone_name := current_zone_name st;
       in_defined_config := true |}
  else if negb (in_defined_config st) || negb (Py.truthy clean_line) then st
  else if Py.startswith clean_line "zone:" then
    {| alias_to_zone_map := alias_to_zone_map st;
       current_zone_name :=
         match Py.split_once ":" clean_line with
         | _ :: p1 :: _ => Some (Py.strip p1)
         | _ => None
         end;
       in_defined_config := in_defined_config st |}
  else
    match pending (current_zone_name st) with
    | Some zone =>
        {| alias_to_zone_map :=
             assign_members zone (zone_members clean_line) (alias_to_zone_map st);
           current_zone_name := None;
           in_defined_config := in_defined_config st |}
    | None => st
    end.

Definition zone_loop (st : zone_state) (lines : list string) : zone_state :=
  fold_left zone_body lines st.

(** The warning of this parser's [except] clause:
    "警告：解析既有 zone 時發生錯誤: {e}". *)
Inductive zone_message : Type :=
| ZoneParseWarning (e : exn).

(** The whole function.  As in [parse_aliases_from_txt], the dictionary is
    created before the [try] and returned after the [except]. *)
Definition parse_zones_from_txt (f : file)
  : gmap string string * list zone_message :=
  match f with
  | OpenFails e => (∅, [ZoneParseWarning e])
  | Reads lines fault =>
      (alias_to_zone_map (zone_loop zone_init lines),
       match fault with
       | Some e => [ZoneParseWarning e]
       | None => []
       end)
  end.

(** ** [generate_brocade_alias_commands] *)

(** The warning for a row that is skipped:
    "警告：第 {index + 2} 行的資料不完整，已跳過。Name: ..., WWPN: ...". *)
Inductive generator_message : Type :=
| IncompleteRowWarning (row_number : nat) (alias_name wwpn : string).

(** [f'alicreate "{alias_name}", "{wwpn}"'] *)
Definition alicreate (alias_name wwpn : string) : string :=
  "alicreate " +:+ dquote +:+ alias_name +:+ dquote +:+ ", "
    +:+ dquote +:+ wwpn +:+ dquote.

(** [config_df.iterrows()]: the rows with their index labels; a frame built
    from a list of rows has the labels 0, 1, 2, ... *)
Definition iterrows (config_df : DataFrame) : list (nat * PortRecord) :=
  combine (seq 0 (length config_df)) config_df.

(** One iteration of the loop over the rows: [commands] and what went to
    stderr. *)
Definition alias_command_body (acc : list string * list generator_message)
  (indexed : nat * PortRecord) : list string * list generator_message :=
  let '(commands, warnings) := acc in
  let '(index, row) := indexed in
  let alias_name := Py.strip (Alias row) in
  let wwpn := Py.strip (WWPN row) in
  if Py.truthy alias_name && Py.truthy wwpn then
    (commands ++ [alicreate alias_name wwpn], warnings)
  else
    (commands, warnings ++ [IncompleteRowWarning (index + 2) alias_name wwpn]).

Definition generate_brocade_alias_commands (config_df : DataFrame)
  : list string * list generator_message :=
  fold_left alias_command_body (iterrows config_df) ([], []).

(** ** [main], with [source_mode = "txt"] as the source sets it *)

(** What [main] hands to its sinks: the commands it prints and writes to
    [switch_commands.txt] ([None] when it prints none of them), and the frame
    it gives to [export_to_excel] ([None] when it exports nothing). *)
Record main_outcome : Type := MainOutcome {
  switch_commands : option (list string);
  report : option DataFrame
}.

(** [source_file] is opened three times, once by each parser; [source] is
    what each of these readings gives. *)
Definition main (source : file) : main_outcome :=
  let existing_aliases := fst (parse_aliases_from_txt source) in
  let existing_zones := fst (parse_zones_from_txt source) in
  let config_data :=
    fst (parse_switchshow_from_txt existing_aliases existing_zones
           "bq_3F_switch_info.txt" source) in
  match config_data with
  | Some df =>
      let alias_commands := fst (generate_brocade_alias_commands df) in
      let zone_commands := generate_brocade_zone_commands df in
      let commands := alias_commands ++ zone_commands in
      {| switch_commands :=
           match commands with
           | [] => None
           | _ :: _ => Some commands
           end;
         report := Some df |}
  | None => {| switch_commands := None; report := None |}
  end.

(** ** Measures of a pattern, used to reason about its matches *)

(** The number of characters every match of [r] has. *)
Fixpoint width (r : Re.regex) : nat :=
  match r with
  | Re.Class _ => 1
  | Re.Lit _ => 1
  | Re.Seq r1 r2 => width r1 + width r2
  | Re.Rep n r1 => n * width r1
  end.

(** The characters that can occur in a match of [r]. *)
Fixpoint accepts (r : Re.regex) (c : ascii) : bool :=
  match r with
  | Re.Class p => p c
  | Re.Lit a => Ascii.eqb c a
  | Re.Seq r1 r2 => accepts r1 c || accepts r2 c
  | Re.Rep _ r1 => accepts r1 c
  end.

(** What a match is: a prefix of the text, of the pattern's width, made of
    characters the pattern accepts. *)
Definition match_ok (r : Re.regex) (s m t : string) : Prop :=
  s = m +:+ t /\ String.length m = width r /\ Py.all_chars (accepts r) m = true.

(** A string the pattern matches from its first to its last character: a
    WWPN in the canonical lowercase form. *)
Definition is_wwpn (w : string) : Prop :=
  Re.match_prefix wwpn_regex w = Some (w, EmptyString).

(** ** Kinds of line, used to state what the parsers do with them *)

(** The test of the first branch of the alias loop. *)
Definition is_alias_line (line : string) : bool :=
  Py.startswith (Py.strip line) "alias:".

(** The name an [alias:] line declares: [parts[1].strip()]. *)
Definition declared_name (line : string) : option string :=
  match Py.split_once ":" (Py.strip line) with
  | _ :: p1 :: _ => Some (Py.strip p1)
  | _ => None
  end.

(** A line that is no [alias:] line and in which the matcher finds nothing. *)
Definition filler_line (line : string) : bool :=
  negb (is_alias_line line) &&
  match wwpn_match (Py.strip line) with
  | Some _ => false
  | None => true
  end.

(** The lines a parser got from the file, and the exception that reading
    the file has in store. *)
Definition lines_read (f : file) : list string :=
  match f with
  | OpenFails _ => []
  | Reads lines _ => lines
  end.

Definition fault_of (f : file) : option exn :=
  match f with
  | OpenFails e => Some e
  | Reads _ fault => fault
  end.

(** Where the entries of [alias_map] and the pending name come from: lines
    of [all], an [alias:] line that declares the name and a line in which the
    matcher finds the WWPN. *)
Definition entry_from (all : list string) (w name : string) : Prop :=
  exists la lw,
    In la all /\ In lw all /\
    is_alias_line la = true /\ declared_name la = Some name /\
    is_alias_line lw = false /\ wwpn_match (Py.strip lw) = Some w.

Definition alias_inv (all : list string) (st : alias_state) : Prop :=
  (forall w name, alias_map st !! w = Some name -> entry_from all w name) /\
  (forall name, last_alias_name st = Some name ->
     exists la, In la all /\ is_alias_line la = true /\ declared_name la = Some name).

(** The test of the first branch of the port-table loop. *)
Definition is_header_line (line : string) : bool :=
  Py.startswith (Py.strip line) "Index Port Address".

(** The first of the whitespace-delimited tokens of a line, and whether it
    is there and made of decimal digits only. *)
Definition leading_token (line : string) : option string :=
  head (Py.split (Py.strip line)).

Definition digit_only_leading_token (line : string) : bool :=
  match leading_token line with
  | Some tok => Py.all_chars Py.isdigit_char tok
  | None => false
  end.

(** ** Notions used by the further properties *)

(** No whitespace character anywhere in [s]. *)
Definition no_space (s : string) : bool :=
  Py.all_chars (fun c => negb (Py.isspace c)) s.

(** A name as the parsers store it: not empty and without surrounding
    whitespace, so that [strip] leaves it as it is. *)
Definition clean_name (s : string) : Prop :=
  Py.strip s = s /\ Py.truthy s = true.

(** The tests of the zone loop, on a line as the file gives it. *)
Definition is_config_marker (line : string) : bool :=
  Py.startswith (Py.strip line) "Defined configuration:".

Definition is_zone_line (line : string) : bool :=
  Py.startswith (Py.strip line) "zone:".

Definition is_blank (line : string) : bool := Py.is_empty (Py.strip line).

(** A line that reaches the last branch of the zone loop once the block has
    begun: no marker, not blank, no [zone:] line. *)
Definition is_member_line (line : string) : bool :=
  negb (is_config_marker line) && negb (is_blank line) && negb (is_zone_line line).

(** No semicolon anywhere in [s]. *)
Definition no_semicolon (s : string) : bool :=
  Py.all_chars (fun c => negb (Ascii.eqb c ";")) s.

(** A row that [generate_brocade_alias_commands] turns into a command, the
    command it gives, and the warning a row that is skipped gives. *)
Definition complete_row (row : PortRecord) : bool :=
  Py.truthy (Py.strip (Alias row)) && Py.truthy (Py.strip (WWPN row)).

Definition row_command (row : PortRecord) : string :=
  alicreate (Py.strip (Alias row)) (Py.strip (WWPN row)).

Definition row_warning (indexed : nat * PortRecord) : generator_message :=
  IncompleteRowWarning (fst indexed + 2)
    (Py.strip (Alias (snd indexed))) (Py.strip (WWPN (snd indexed))).

(** The row one line of the port table gives, if it gives one: the part of
    the loop body after the tests for the header and for [admin>]. *)
Definition row_of_line (existing_aliases existing_zones : gmap string string)
  (raw : string) : option PortRecord :=
  let line := Py.strip raw in
  match Re.search wwpn_regex line with
  | Some m =>
      if Py.contains "F-Port" line && Py.contains "Online" line
      then port_row existing_aliases existing_zones line m
      else None
  | None => None
  end.

(** What every row of the port table has: an index made of decimal digits,
    a canonical WWPN, the alias the alias dictionary has for that WWPN or
    else [Port_<index>], and the zone the zone dictionary has for that alias
    or else none. *)
Definition well_formed_row (existing_aliases existing_zones : gmap string string)
  (row : PortRecord) : Prop :=
  Py.isdigit (Port_Index row) = true /\
  is_wwpn (WWPN row) /\
  Alias row = default ("Port_" +:+ Port_Index row) (existing_aliases !! WWPN row) /\
  Zone_Name row = default EmptyString (existing_zones !! Alias row).

(** * Properties *)

Example alias_ex1 :
  parse_aliases_from_txt
    (Reads [" alias: Host1"; "    10:00:00:00:c9:11:22:33"] None)
  = ({[ "10:00:00:00:c9:11:22:33" := "Host1" ]}, []).
Proof. vm_compute. reflexivity. Qed.

Example switchshow_ex1 :
  parse_switchshow_from_txt {[ "10:00:00:00:c9:11:22:33" := "Host1" ]}
    {[ "Host1" := "Zone1" ]} "f.txt"
    (Reads ["Index Port Address Media Speed State Proto";
            "   3   3   010300   id    N8   Online      FC  F-Port  10:00:00:00:c9:11:22:33";
            "   4   4   010400   id    N8   Online      FC  F-Port  10:00:00:00:c9:11:22:44";
            "sw:admin> "; 
            "   5   5   010400   id    N8   Online      FC  F-Port  10:00:00:00:c9:11:22:55"] None)
  = (Some [mkPortRecord "3" "Host1" "10:00:00:00:c9:11:22:33" "Zone1";
           mkPortRecord "4" "Port_4" "10:00:00:00:c9:11:22:44" EmptyString], []).
Proof. vm_compute. reflexivity. Qed.

Example zone_ex1 :
  generate_brocade_zone_commands
    [mkPortRecord "3" "A1" "w" "ZoneX"; mkPortRecord "4" "A2" "w" "ZoneX"]
  = ["zonecreate " +:+ dquote +:+ "ZoneX" +:+ dquote +:+ ", " +:+ dquote +:+ "A1;A2" +:+ dquote].
Proof. vm_compute. reflexivity. Qed.

(** ** Matches of a pattern *)

Section RegexFacts.

Lemma app_cons (c : ascii) (a b : string) :
  String c a +:+ b = String c (a +:+ b).
Proof. reflexivity. Qed.

Lemma app_empty_l (b : string) : EmptyString +:+ b = b.
Proof. reflexivity. Qed.

Lemma app_empty_r (a : string) : a +:+ EmptyString = a.
Proof. induction a as [|c a IH]; [reflexivity|]. now rewrite app_cons, IH. Qed.

Lemma all_chars_app p a b :
  Py.all_chars p (a +:+ b) = Py.all_chars p a && Py.all_chars p b.
Proof.
  induction a as [|c a IH]; [reflexivity|].
  rewrite app_cons. simpl. rewrite IH. apply andb_assoc.
Qed.

Lemma all_chars_weaken (p q : ascii -> bool) s :
  (forall c, p c = true -> q c = true) ->
  Py.all_chars p s = true -> Py.all_chars q s = true.
Proof.
  intros Hpq. induction s as [|c s IH]; simpl; [reflexivity|].
  rewrite !andb_true_iff. intros [Hc Hs]. split; auto.
Qed.

Lemma string_app_assoc (a b c : string) : (a +:+ b) +:+ c = a +:+ (b +:+ c).
Proof. induction a as [|x a IH]; [reflexivity|]. now rewrite !app_cons, IH. Qed.

Lemma string_app_length (a b : string) :
  String.length (a +:+ b) = String.length a + String.length b.
Proof. induction a as [|x a IH]; [reflexivity|]. rewrite app_cons. simpl. now rewrite IH. Qed.

Lemma match_prefix_ok r :
  forall s m t, Re.match_prefix r s = Some (m, t) -> match_ok r s m t.
Proof.
  induction r as [p | a | r1 IH1 r2 IH2 | n r1 IH1]; intros s m t; simpl.
  - destruct s as [|c s]; [discriminate|].
    destruct (p c) eqn:Hp; [|discriminate].
    intros [= <- <-]. repeat split; simpl. now rewrite Hp.
  - destruct s as [|c s]; [discriminate|].
    destruct (Ascii.eqb c a) eqn:Hp; [|discriminate].
    intros [= <- <-]. repeat split; simpl. now rewrite Hp.
  - destruct (Re.match_prefix r1 s) as [[m1 t1]|] eqn:H1; [|discriminate].
    destruct (Re.match_prefix r2 t1) as [[m2 t2]|] eqn:H2; [|discriminate].
    intros [= <- <-].
    destruct (IH1 _ _ _ H1) as (-> & L1 & C1).
    destruct (IH2 _ _ _ H2) as (-> & L2 & C2).
    repeat split.
    + symmetry. apply string_app_assoc.
    + rewrite string_app_length. simpl. lia.
    + rewrite all_chars_app.
      rewrite (all_chars_weaken (accepts r1) _ m1), (all_chars_weaken (accepts r2) _ m2);
        auto; intros c Hc; simpl; rewrite Hc; auto using orb_true_r.
  - revert s m t. induction n as [|k IHk]; intros s m t.
    + intros [= <- <-]. repeat split.
    + destruct (Re.match_prefix r1 s) as [[m1 t1]|] eqn:H1; [|discriminate].
      match goal with
      | |- context [match ?f k t1 with _ => _ end] => destruct (f k t1) as [[m2 t2]|] eqn:H2
      end; [|discriminate].
      intros [= <- <-].
      destruct (IH1 _ _ _ H1) as (-> & L1 & C1).
      destruct (IHk _ _ _ H2) as (-> & L2 & C2).
      repeat split.
      * symmetry. apply string_app_assoc.
      * rewrite string_app_length. simpl in L2 |- *. lia.
      * rewrite all_chars_app. apply andb_true_intro. split; [exact C1 | exact C2].
Qed.

Lemma match_prefix_needs_width r s :
  String.length s < width r -> Re.match_prefix r s = None.
Proof.
  intros Hlt. destruct (Re.match_prefix r s) as [[m t]|] eqn:H; [|reflexivity].
  destruct (match_prefix_ok _ _ _ _ H) as (-> & L & _).
  rewrite string_app_length in Hlt. lia.
Qed.

Lemma search_needs_width r s :
  String.length s < width r -> Re.search r s = None.
Proof.
  induction s as [|c s IH]; intros Hlt; simpl.
  - now rewrite match_prefix_needs_width.
  - rewrite match_prefix_needs_width by exact Hlt.
    apply IH. simpl in Hlt. lia.
Qed.

(** A text the pattern matches whole is what [search] finds in it. *)
Lemma search_whole r w :
  Re.match_prefix r w = Some (w, EmptyString) -> Re.search r w = Some w.
Proof. intros H. destruct w; simpl in *; now rewrite H. Qed.

(** [search] returns the match at the leftmost position that has one: the
    text is [pre], the match, [post], and no later start inside [pre] (that
    is, no earlier position of the text) has a match. *)
Lemma search_found r s m :
  Re.search r s = Some m ->
  exists pre post,
    s = pre +:+ m +:+ post /\
    Re.match_prefix r (m +:+ post) = Some (m, post) /\
    (forall p1 p2, pre = p1 +:+ p2 -> p2 <> EmptyString ->
       Re.match_prefix r (p2 +:+ m +:+ post) = None).
Proof.
  revert m. induction s as [|c s IH]; intros m; simpl.
  - destruct (Re.match_prefix r EmptyString) as [[m' t]|] eqn:Hm; [|discriminate].
    intros [= ->]. destruct (match_prefix_ok _ _ _ _ Hm) as (Happ & _ & _).
    exists EmptyString, t. rewrite app_empty_l, <- Happ. repeat split; auto.
    intros [|a p1] p2 Hp Hne; [now symmetry in Hp | discriminate].
  - destruct (Re.match_prefix r (String c s)) as [[m' t]|] eqn:Hm.
    + intros [= ->]. destruct (match_prefix_ok _ _ _ _ Hm) as (Happ & _ & _).
      exists EmptyString, t. rewrite app_empty_l, <- Happ. repeat split; auto.
      intros [|a p1] p2 Hp Hne; [now symmetry in Hp | discriminate].
    + intros Hs. destruct (IH _ Hs) as (pre & post & -> & Hmatch & Hleft).
      exists (String c pre), post. repeat split; auto.
      intros [|a p1] p2 Hp Hne.
      * rewrite app_empty_l in Hp. subst p2. exact Hm.
      * rewrite app_cons in Hp. injection Hp as _ Hp. now apply (Hleft p1 p2).
Qed.

(** When [search] finds nothing, no position of the text has a match. *)
Lemma search_not_found r s :
  Re.search r s = None ->
  forall pre rest, s = pre +:+ rest -> Re.match_prefix r rest = None.
Proof.
  induction s as [|c s IH]; simpl.
  - destruct (Re.match_prefix r EmptyString) as [[m t]|] eqn:Hm; [discriminate|].
    intros _ [|a pre] rest Hs; [|discriminate].
    rewrite app_empty_l in Hs. now subst rest.
  - destruct (Re.match_prefix r (String c s)) as [[m t]|] eqn:Hm; [discriminate|].
    intros Hs [|a pre] rest Hrest.
    + rewrite app_empty_l in Hrest. now subst rest.
    + rewrite app_cons in Hrest. injection Hrest as _ Hrest. now apply (IH Hs pre).
Qed.

End RegexFacts.

(** ** The WWPN matcher *)

Section WwpnMatcher.

Lemma search_cons r c t :
  Re.search r (String c t)
  = match Re.match_prefix r (String c t) with
    | Some (m, _) => Some m
    | None => Re.search r t
    end.
Proof. reflexivity. Qed.

(** In a text exactly as long as the pattern is wide, the only position
    that can match is the first. *)
Lemma search_exact_width r u :
  String.length u = width r -> 0 < width r ->
  Re.match_prefix r u = None -> Re.search r u = None.
Proof.
  intros Hlen Hpos Hnone. destruct u as [|c t]; simpl in Hlen; [lia|].
  rewrite search_cons, Hnone. apply search_needs_width. lia.
Qed.

Lemma wwpn_width : width wwpn_regex = 23.
Proof. reflexivity. Qed.

(** The characters of a match are digits, the letters a..f and the colon:
    [lower] leaves them as they are, and [upper] changes the letters into
    characters the pattern does not accept. *)
Lemma lower_char_fixed c :
  accepts wwpn_regex c = true -> Py.lower_char c = c.
Proof.
  destruct c as [[] [] [] [] [] [] [] []]; vm_compute; congruence.
Qed.

Lemma upper_char_fixed c :
  accepts wwpn_regex c = true ->
  accepts wwpn_regex (Py.upper_char c) = true -> Py.upper_char c = c.
Proof.
  destruct c as [[] [] [] [] [] [] [] []]; vm_compute; congruence.
Qed.

Lemma lower_fixed w :
  Py.all_chars (accepts wwpn_regex) w = true -> Py.lower w = w.
Proof.
  induction w as [|c w IH]; [reflexivity|].
  cbn [Py.all_chars Py.lower]. rewrite andb_true_iff. intros [Hc Hw].
  now rewrite (lower_char_fixed c Hc), (IH Hw).
Qed.

Lemma upper_fixed w :
  Py.all_chars (accepts wwpn_regex) w = true ->
  Py.all_chars (accepts wwpn_regex) (Py.upper w) = true -> Py.upper w = w.
Proof.
  induction w as [|c w IH]; [reflexivity|].
  cbn [Py.all_chars Py.upper]. rewrite !andb_true_iff.
  intros [Hc Hw] [Hc' Hw'].
  now rewrite (upper_char_fixed c Hc Hc'), (IH Hw Hw').
Qed.

Lemma upper_length w : String.length (Py.upper w) = String.length w.
Proof. induction w as [|c w IH]; simpl; [reflexivity|]. now rewrite IH. Qed.

Lemma length_zero_empty (s : string) : String.length s = 0 -> s = EmptyString.
Proof. destruct s; [reflexivity|discriminate]. Qed.

(** A canonical WWPN is found as it stands. *)
Lemma wwpn_match_canonical w : is_wwpn w -> wwpn_match w = Some w.
Proof.
  intros Hw. unfold wwpn_match. rewrite (search_whole _ _ Hw).
  destruct (match_prefix_ok _ _ _ _ Hw) as (_ & _ & Hc).
  now rewrite (lower_fixed w Hc).
Qed.

(** C1, against the claim: the pattern is compiled without [re.IGNORECASE]
    and its class is [[0-9a-f]], so the matcher is case-sensitive.  Every
    canonical WWPN is matched and returned as it is, but once uppercased
    (and changed by it, that is, holding a letter) it is not matched at
    all, where the claim has the matcher return the lowercase form. *)
Theorem wwpn_match_rejects_uppercase (w : string) :
  is_wwpn w -> Py.upper w <> w ->
  wwpn_match w = Some w /\ wwpn_match (Py.upper w) = None.
Proof.
  intros Hw Hup. split; [now apply wwpn_match_canonical|].
  destruct (match_prefix_ok _ _ _ _ Hw) as (_ & Hlen & Hc).
  unfold wwpn_match.
  rewrite search_exact_width; [reflexivity| | rewrite wwpn_width; lia |].
  - now rewrite upper_length.
  - destruct (Re.match_prefix wwpn_regex (Py.upper w)) as [[m t]|] eqn:Hm;
      [exfalso|reflexivity].
    destruct (match_prefix_ok _ _ _ _ Hm) as (Happ & Hlm & Hcm).
    assert (Ht : t = EmptyString).
    { apply length_zero_empty.
      pose proof (upper_length w) as Hl. rewrite Happ, string_app_length in Hl. lia. }
    subst t. rewrite app_empty_r in Happ. subst m.
    apply Hup. now apply upper_fixed.
Qed.

Lemma wwpn_match_rejects_uppercase_witness :
  wwpn_match "10:00:00:00:c9:aa:bb:cc" = Some "10:00:00:00:c9:aa:bb:cc" /\
  wwpn_match "10:00:00:00:C9:AA:BB:CC" = None.
Proof.
  apply (wwpn_match_rejects_uppercase "10:00:00:00:c9:aa:bb:cc").
  - vm_compute. reflexivity.
  - vm_compute. discriminate.
Defined.

(** What the matcher returns is a piece of the line, 23 characters long, made
    of digits, the letters a..f and colons, taken at the leftmost position
    that has a match, and returned as it stands in the line. *)
Lemma wwpn_match_found line w :
  wwpn_match line = Some w ->
  exists pre post,
    line = pre +:+ w +:+ post /\
    String.length w = 23 /\
    Py.all_chars (accepts wwpn_regex) w = true /\
    Re.match_prefix wwpn_regex (w +:+ post) = Some (w, post) /\
    (forall p1 p2, pre = p1 +:+ p2 -> p2 <> EmptyString ->
       Re.match_prefix wwpn_regex (p2 +:+ w +:+ post) = None).
Proof.
  unfold wwpn_match.
  destruct (Re.search wwpn_regex line) as [m|] eqn:Hs; [|discriminate].
  intros [= <-].
  destruct (search_found _ _ _ Hs) as (pre & post & Hline & Hm & Hleft).
  destruct (match_prefix_ok _ _ _ _ Hm) as (_ & Hlen & Hc).
  rewrite (lower_fixed m Hc). exists pre, post. repeat split; auto.
Qed.

End WwpnMatcher.

(** ** The alias section parser *)

Section AliasParser.

Lemma alias_loop_app st l1 l2 :
  alias_loop st (l1 ++ l2) = alias_loop (alias_loop st l1) l2.
Proof. unfold alias_loop. apply fold_left_app. Qed.

Lemma alias_loop_cons st l rest :
  alias_loop st (l :: rest) = alias_loop (alias_body st l) rest.
Proof. reflexivity. Qed.

Lemma startswith_app s p :
  Py.startswith s p = true -> exists rest, s = p +:+ rest.
Proof.
  revert s. induction p as [|a p IH]; intros s.
  - intros _. now exists s.
  - destruct s as [|b s]; simpl; [discriminate|].
    rewrite andb_true_iff. intros [Hab Hs].
    apply Ascii.eqb_eq in Hab. subst b.
    destruct (IH _ Hs) as [rest ->]. now exists rest.
Qed.

(** An [alias:] line always has the colon that [split(":", 1)] cuts at, so
    [len(parts) > 1] holds and the line declares a name. *)
Lemma alias_line_declares line :
  is_alias_line line = true -> exists name, declared_name line = Some name.
Proof.
  unfold is_alias_line, declared_name. intros H.
  destruct (startswith_app _ _ H) as [rest ->]. now exists (Py.strip rest).
Qed.

Lemma alias_body_alias st line name :
  is_alias_line line = true -> declared_name line = Some name ->
  alias_body st line = {| alias_map := alias_map st; last_alias_name := Some name |}.
Proof.
  unfold is_alias_line, declared_name, alias_body. intros -> Hn.
  destruct (Py.split_once ":" (Py.strip line)) as [|p0 [|p1 ps]]; try discriminate.
  now injection Hn as ->.
Qed.

Lemma alias_body_filler st line :
  filler_line line = true -> alias_body st line = st.
Proof.
  unfold filler_line, is_alias_line, alias_body.
  rewrite andb_true_iff, negb_true_iff. intros [-> Hw].
  destruct (pending (last_alias_name st)); [|reflexivity].
  now destruct (wwpn_match (Py.strip line)).
Qed.

Lemma alias_loop_filler st mid :
  forallb filler_line mid = true -> alias_loop st mid = st.
Proof.
  induction mid as [|l mid IH]; [reflexivity|].
  cbn [forallb]. rewrite andb_true_iff. intros [Hl Hmid].
  now rewrite alias_loop_cons, alias_body_filler, IH.
Qed.

Lemma alias_body_wwpn m name line w :
  Py.truthy name = true -> is_alias_line line = false ->
  wwpn_match (Py.strip line) = Some w ->
  alias_body {| alias_map := m; last_alias_name := Some name |} line
  = {| alias_map := <[w := name]> m; last_alias_name := None |}.
Proof.
  unfold is_alias_line, alias_body. intros Hn -> Hw. simpl.
  now rewrite Hn, Hw.
Qed.

(** C2, as amended: the pending alias name is cleared by a WWPN match and by
    nothing else.  After an [alias:] line that declares a non-empty name,
    lines that are no [alias:] lines and hold no WWPN leave the parser's
    state as it is, however many they are, and the next line that holds a
    WWPN is recorded under that alias; only then is the name cleared. *)
Theorem alias_pending_kept_until_match st aline name mid wline w :
  is_alias_line aline = true -> declared_name aline = Some name ->
  Py.truthy name = true ->
  forallb filler_line mid = true ->
  is_alias_line wline = false -> wwpn_match (Py.strip wline) = Some w ->
  alias_loop st (aline :: mid) =
    {| alias_map := alias_map st; last_alias_name := Some name |} /\
  alias_loop st (aline :: mid ++ [wline]) =
    {| alias_map := <[w := name]> (alias_map st); last_alias_name := None |}.
Proof.
  intros Ha Hn Ht Hmid Hw Hm.
  assert (Hpre : alias_loop st (aline :: mid) =
                 {| alias_map := alias_map st; last_alias_name := Some name |}).
  { now rewrite alias_loop_cons, (alias_body_alias _ _ _ Ha Hn), alias_loop_filler. }
  split; [exact Hpre|].
  change (aline :: mid ++ [wline]) with ((aline :: mid) ++ [wline]).
  rewrite alias_loop_app, Hpre. cbn [alias_loop fold_left].
  now apply alias_body_wwpn.
Qed.

Lemma alias_pending_kept_until_match_witness :
  alias_loop alias_init ["alias: Host1"; "(no address yet)"; " "] =
    {| alias_map := ∅; last_alias_name := Some "Host1" |} /\
  alias_loop alias_init
    (["alias: Host1"; "(no address yet)"; " "] ++ ["  10:00:00:00:c9:11:22:33"]) =
    {| alias_map := <[ "10:00:00:00:c9:11:22:33" := "Host1" ]> ∅;
       last_alias_name := None |}.
Proof.
  apply (alias_pending_kept_until_match alias_init "alias: Host1" "Host1"
           ["(no address yet)"; " "] "  10:00:00:00:c9:11:22:33"
           "10:00:00:00:c9:11:22:33"); vm_compute; reflexivity.
Defined.

(** C2, against the claim: a WWPN two lines after the [alias:] line, with
    a line without WWPN in between, is recorded under that alias. *)
Lemma alias_not_single_shot :
  parse_aliases_from_txt
    (Reads ["alias: Host1"; "(no address yet)"; "  10:00:00:00:c9:11:22:33"] None)
  = ({[ "10:00:00:00:c9:11:22:33" := "Host1" ]}, []).
Proof. vm_compute. reflexivity. Qed.

(** C10: a second [alias:] line met while a name is pending replaces that
    name, and the earlier name is lost for good.  After the first [alias:]
    line, any lines that neither declare an alias nor hold a WWPN, and the
    second [alias:] line, the dictionary is what it was before the first
    line and the pending name is the second line's; so the parser goes on
    from a state in which the earlier name occurs nowhere. *)
Theorem alias_redeclared_replaces_pending st first mid second name rest :
  is_alias_line first = true ->
  forallb filler_line mid = true ->
  is_alias_line second = true -> declared_name second = Some name ->
  alias_loop st (first :: mid ++ [second]) =
    {| alias_map := alias_map st; last_alias_name := Some name |} /\
  alias_loop st (first :: mid ++ second :: rest) =
    alias_loop {| alias_map := alias_map st; last_alias_name := Some name |} rest.
Proof.
  intros H1 Hmid H2 Hn.
  destruct (alias_line_declares _ H1) as [n1 Hn1].
  assert (Hpre : alias_loop st (first :: mid ++ [second]) =
                 {| alias_map := alias_map st; last_alias_name := Some name |}).
  { rewrite alias_loop_cons, (alias_body_alias _ _ _ H1 Hn1).
    rewrite alias_loop_app, (alias_loop_filler _ mid Hmid).
    cbn [alias_loop fold_left]. now rewrite (alias_body_alias _ _ _ H2 Hn). }
  split; [exact Hpre|].
  change (first :: mid ++ second :: rest) with (first :: mid ++ [second] ++ rest).
  rewrite app_assoc, app_comm_cons, alias_loop_app. now rewrite Hpre.
Qed.

Lemma alias_redeclared_replaces_pending_witness :
  alias_loop alias_init (["alias: Old"; "(no address)"] ++ ["alias: New"]) =
    {| alias_map := ∅; last_alias_name := Some "New" |} /\
  alias_loop alias_init
    (["alias: Old"; "(no address)"] ++ ["alias: New"; "10:00:00:00:c9:11:22:33"]) =
    alias_loop {| alias_map := ∅; last_alias_name := Some "New" |}
               ["10:00:00:00:c9:11:22:33"].
Proof.
  apply (alias_redeclared_replaces_pending alias_init "alias: Old"
           ["(no address)"] "alias: New" "New" ["10:00:00:00:c9:11:22:33"]);
    vm_compute; reflexivity.
Defined.

Example alias_redeclared_ex :
  parse_aliases_from_txt
    (Reads ["alias: Old"; "(no address)"; "alias: New"; "10:00:00:00:c9:11:22:33"] None)
  = ({[ "10:00:00:00:c9:11:22:33" := "New" ]}, []).
Proof. vm_compute. reflexivity. Qed.

Lemma pending_some o name : pending o = Some name -> o = Some name.
Proof.
  destruct o as [n|]; simpl; [|discriminate].
  destruct (Py.truthy n); [now intros [= ->] | discriminate].
Qed.

Lemma alias_body_inv all st line :
  In line all -> alias_inv all st -> alias_inv all (alias_body st line).
Proof.
  intros Hin [Hmap Hpend]. unfold alias_body.
  destruct (Py.startswith (Py.strip line) "alias:") eqn:Ha.
  - destruct (Py.split_once ":" (Py.strip line)) as [|p0 [|p1 ps]] eqn:Hs;
      try (split; assumption).
    split; [exact Hmap|]. cbn. intros name [= <-].
    exists line. unfold is_alias_line, declared_name. now rewrite Ha, Hs.
  - destruct (pending (last_alias_name st)) as [name|] eqn:Hp;
      [|split; assumption].
    destruct (wwpn_match (Py.strip line)) as [w|] eqn:Hw; [|split; assumption].
    apply pending_some in Hp. split; cbn; [|discriminate].
    intros w' name'. rewrite lookup_insert. case_decide as Heq.
    + intros [= <-]. subst w'. destruct (Hpend _ Hp) as (la & Hla & Hal & Hdn).
      exists la, line. unfold is_alias_line at 2. now rewrite Ha.
    + apply Hmap.
Qed.

Lemma alias_loop_inv all lines st :
  (forall l, In l lines -> In l all) ->
  alias_inv all st -> alias_inv all (alias_loop st lines).
Proof.
  revert st. induction lines as [|l lines IH]; intros st Hsub Hinv; [exact Hinv|].
  rewrite alias_loop_cons. apply IH.
  - intros l' Hl'. apply Hsub. now right.
  - apply alias_body_inv; [|exact Hinv]. apply Hsub. now left.
Qed.

(** Every entry of the dictionary the parser returns pairs a WWPN found in a
    line it read with the name an [alias:] line it read declares, whether
    the reading ended well or not. *)
Lemma alias_entries_from_lines f w name :
  fst (parse_aliases_from_txt f) !! w = Some name ->
  entry_from (lines_read f) w name.
Proof.
  destruct f as [e|lines fault]; cbn.
  - now rewrite lookup_empty.
  - apply (alias_loop_inv lines lines alias_init); [auto|].
    split; cbn; [intros ? ?; now rewrite lookup_empty | discriminate].
Qed.

End AliasParser.

(** ** The port-table parser *)

Section PortTableParser.

Variables existing_aliases existing_zones : gmap string string.

Local Abbreviation body := (switchshow_body existing_aliases existing_zones).
Local Abbreviation loop := (switchshow_loop existing_aliases existing_zones).
Local Abbreviation parse := (parse_switchshow_from_txt existing_aliases existing_zones).

Lemma loop_app st pre rest st' :
  loop st pre = (Next, st') -> loop st (pre ++ rest) = loop st' rest.
Proof.
  revert st. induction pre as [|l pre IH]; intros st; simpl.
  - now intros [= ->].
  - destruct (body st l) as [[] st1]; [apply IH | discriminate].
Qed.

(** A line that reaches the [admin>] test and passes it ends the loop. *)
Lemma body_admin st line :
  in_switchshow_section st = true ->
  is_header_line line = false ->
  Py.contains "admin>" (Py.strip line) = true ->
  body st line
  = (Break, {| in_switchshow_section := false; port_data := port_data st |}).
Proof.
  unfold is_header_line, switchshow_body. intros -> -> ->. reflexivity.
Qed.

Lemma isdigit_hd_digit_only line :
  Py.isdigit (hd EmptyString (Py.split (Py.strip line))) = true ->
  digit_only_leading_token line = true.
Proof.
  unfold digit_only_leading_token, leading_token, Py.isdigit.
  destruct (Py.split (Py.strip line)) as [|tok toks]; simpl.
  - discriminate.
  - now rewrite andb_true_iff.
Qed.


(** C5, as amended: a candidate line whose WWPN is no key of the alias
    dictionary gives a row whose index is the line's first token, a run of
    decimal digits, and whose alias is [Port_] followed by that token.
    Its zone is what the zone dictionary holds for that synthesized alias:
    empty when the dictionary has no such key. *)
Theorem unresolved_wwpn_row line m row :
  port_row existing_aliases existing_zones (Py.strip line) m = Some row ->
  existing_aliases !! Py.lower m = None ->
  leading_token line = Some (Port_Index row) /\
  Py.isdigit (Port_Index row) = true /\
  WWPN row = Py.lower m /\
  Alias row = "Port_" +:+ Port_Index row /\
  Zone_Name row = default EmptyString (existing_zones !! Alias row) /\
  (existing_zones !! ("Port_" +:+ Port_Index row) = None ->
   Zone_Name row = EmptyString).
Proof.
  unfold port_row, leading_token, dict_get. intros Hrow Hnone.
  destruct (Py.split (Py.strip line)) as [|tok toks]; [discriminate|].
  cbn [hd] in *.
  destruct ((1 <? length (tok :: toks))%nat && Py.isdigit tok) eqn:Hg;
    [|discriminate].
  apply andb_true_iff in Hg as [_ Hd].
  injection Hrow as <-. rewrite Hnone. cbn.
  repeat split; auto. now intros ->.
Qed.


Lemma loop_outside_section lines rows :
  forallb (fun l => negb (is_header_line l)) lines = true ->
  loop {| in_switchshow_section := false; port_data := rows |} lines
  = (Next, {| in_switchshow_section := false; port_data := rows |}).
Proof.
  induction lines as [|l lines IH]; [reflexivity|].
  cbn [forallb]. rewrite andb_true_iff, negb_true_iff. intros [Hl Hrest].
  cbn [switchshow_loop]. unfold switchshow_body.
  unfold is_header_line in Hl. rewrite Hl. cbn. now apply IH.
Qed.

(** C9: in a file none of whose lines, stripped, starts with
    [Index Port Address], the scan never enters the section: it ends in its
    initial state with no row, and the parser returns [None], with nothing
    written to stderr when the file was read to its end. *)
Theorem no_header_no_data file_path f :
  forallb (fun l => negb (is_header_line l)) (lines_read f) = true ->
  loop switchshow_init (lines_read f) = (Next, switchshow_init) /\
  fst (parse file_path f) = None /\
  parse file_path (Reads (lines_read f) None) = (None, []).
Proof.
  intros H. pose proof (loop_outside_section _ [] H) as Hloop.
  fold switchshow_init in Hloop.
  split; [exact Hloop|].
  unfold parse_switchshow_from_txt. rewrite Hloop.
  destruct f as [e|lines [e|]]; cbn in *; try rewrite Hloop; auto.
Qed.

(** C3, as amended: the value returned after a failure to read the file
    and the value returned after a parse that found no row are the same
    [None].  A run that writes a message to stderr, which only the two
    [except] clauses do, returns [None]; so does a run that reads the file
    to its end and collects no row, and it writes nothing.  The message on
    stderr is all that tells the two outcomes apart. *)
Theorem switchshow_failure_and_no_data_both_none file_path f lines :
  snd (parse file_path f) <> [] ->
  port_data (snd (loop switchshow_init lines)) = [] ->
  fst (parse file_path f) = None /\
  parse file_path (Reads lines None) = (None, []).
Proof.
  intros Hmsg Hrows. split.
  - unfold parse_switchshow_from_txt in *.
    destruct f as [e|ls [e|]]; [reflexivity| |].
    + destruct (loop switchshow_init ls) as [[] st]; [reflexivity|].
      now contradiction Hmsg.
    + destruct (loop switchshow_init ls) as [[] st]; now contradiction Hmsg.
  - unfold parse_switchshow_from_txt.
    destruct (loop switchshow_init lines) as [[] st]; cbn in Hrows;
      now rewrite Hrows.
Qed.

End PortTableParser.


Lemma unresolved_wwpn_row_witness :
  let row := mkPortRecord "3" "Port_3" "10:00:00:00:c9:11:22:33" EmptyString in
  leading_token "  3   3   010300   id  N8  Online  FC  F-Port  10:00:00:00:c9:11:22:33"
    = Some (Port_Index row) /\
  Py.isdigit (Port_Index row) = true /\
  WWPN row = Py.lower "10:00:00:00:c9:11:22:33" /\
  Alias row = "Port_" +:+ Port_Index row /\
  Zone_Name row = default EmptyString ((∅ : gmap string string) !! Alias row) /\
  ((∅ : gmap string string) !! ("Port_" +:+ Port_Index row) = None ->
   Zone_Name row = EmptyString).
Proof.
  apply (unresolved_wwpn_row ∅ ∅
           "  3   3   010300   id  N8  Online  FC  F-Port  10:00:00:00:c9:11:22:33"
           "10:00:00:00:c9:11:22:33"
           (mkPortRecord "3" "Port_3" "10:00:00:00:c9:11:22:33" EmptyString));
    vm_compute; reflexivity.
Defined.

(** C5, against the claim: the WWPN is no key of the alias dictionary, but
    the zone dictionary has the key [Port_3], and the row's zone is not
    empty. *)
Lemma unresolved_wwpn_zone_not_empty :
  parse_switchshow_from_txt ∅ {[ "Port_3" := "ZoneA" ]} "switch.txt"
    (Reads ["Index Port Address Media Speed State Proto";
            "  3   3   010300   id  N8  Online  FC  F-Port  10:00:00:00:c9:11:22:33"]
           None)
  = (Some [mkPortRecord "3" "Port_3" "10:00:00:00:c9:11:22:33" "ZoneA"], []).
Proof. vm_compute. reflexivity. Qed.


Lemma no_header_no_data_witness :
  let f := Reads ["sw1:admin> switchshow";
                  "  3   3   010300   id  N8  Online  FC  F-Port  10:00:00:00:c9:11:22:33"]
                 None in
  switchshow_loop ∅ ∅ switchshow_init (lines_read f) = (Next, switchshow_init) /\
  fst (parse_switchshow_from_txt ∅ ∅ "switch.txt" f) = None /\
  parse_switchshow_from_txt ∅ ∅ "switch.txt" (Reads (lines_read f) None) = (None, []).
Proof.
  apply (no_header_no_data ∅ ∅ "switch.txt"
           (Reads ["sw1:admin> switchshow";
                   "  3   3   010300   id  N8  Online  FC  F-Port  10:00:00:00:c9:11:22:33"]
                  None)).
  vm_compute. reflexivity.
Defined.

Lemma switchshow_failure_and_no_data_both_none_witness :
  fst (parse_switchshow_from_txt ∅ ∅ "switch.txt" (OpenFails FileNotFoundError)) = None /\
  parse_switchshow_from_txt ∅ ∅ "switch.txt"
    (Reads ["Index Port Address Media Speed State Proto"; "  3  3  010300  id  N8  No_Light  FC"] None)
  = (None, []).
Proof.
  apply (switchshow_failure_and_no_data_both_none ∅ ∅ "switch.txt"
           (OpenFails FileNotFoundError)
           ["Index Port Address Media Speed State Proto"; "  3  3  010300  id  N8  No_Light  FC"]).
  - vm_compute. discriminate.
  - vm_compute. reflexivity.
Defined.

(** C3, against the claim: a missing file and a file without any port row
    give the caller the same value. *)
Lemma switchshow_failure_same_value_as_no_data :
  fst (parse_switchshow_from_txt ∅ ∅ "switch.txt" (OpenFails FileNotFoundError))
  = fst (parse_switchshow_from_txt ∅ ∅ "switch.txt"
           (Reads ["Index Port Address Media Speed State Proto";
                   "  3  3  010300  id  N8  No_Light  FC"] None)).
Proof. vm_compute. reflexivity. Qed.

(** C8, as amended: when reading the file fails, the parser does not raise;
    it writes one warning and returns [alias_map] as the lines read before
    the failure left it, the same dictionary it returns for a file that ends
    after those lines.  Each of its entries pairs a WWPN found in one of
    those lines with the name declared by an [alias:] line among them.  It
    is the empty dictionary when the file cannot be opened. *)
Theorem alias_failure_reported_lines_kept f e :
  fault_of f = Some e ->
  snd (parse_aliases_from_txt f) = [AliasParseWarning e] /\
  fst (parse_aliases_from_txt f)
  = fst (parse_aliases_from_txt (Reads (lines_read f) None)) /\
  (forall w name, fst (parse_aliases_from_txt f) !! w = Some name ->
     entry_from (lines_read f) w name) /\
  parse_aliases_from_txt (OpenFails e) = (∅, [AliasParseWarning e]).
Proof.
  intros Hf. split; [|split; [|split]].
  - destruct f as [e'|lines [e'|]]; simpl in Hf; try discriminate;
      now injection Hf as ->.
  - now destruct f as [e'|lines [e'|]].
  - apply alias_entries_from_lines.
  - reflexivity.
Qed.

Lemma alias_failure_reported_lines_kept_witness :
  let f := Reads ["alias: Host1"; "  10:00:00:00:c9:11:22:33"; "alias: Host2"]
                 (Some (OtherException "decode")) in
  snd (parse_aliases_from_txt f) = [AliasParseWarning (OtherException "decode")] /\
  fst (parse_aliases_from_txt f)
  = fst (parse_aliases_from_txt (Reads (lines_read f) None)) /\
  (forall w name, fst (parse_aliases_from_txt f) !! w = Some name ->
     entry_from (lines_read f) w name) /\
  parse_aliases_from_txt (OpenFails (OtherException "decode"))
  = (∅, [AliasParseWarning (OtherException "decode")]).
Proof.
  apply (alias_failure_reported_lines_kept
           (Reads ["alias: Host1"; "  10:00:00:00:c9:11:22:33"; "alias: Host2"]
                  (Some (OtherException "decode")))
           (OtherException "decode")).
  reflexivity.
Defined.

(** C8, against the claim: reading fails after two lines were delivered, and
    the dictionary returned holds the pair those two lines gave. *)
Lemma alias_failure_partial_mapping :
  parse_aliases_from_txt
    (Reads ["alias: Host1"; "  10:00:00:00:c9:11:22:33"]
           (Some (OtherException "decode")))
  = ({[ "10:00:00:00:c9:11:22:33" := "Host1" ]},
     [AliasParseWarning (OtherException "decode")]).
Proof. vm_compute. reflexivity. Qed.

(** ** The zone command generator *)

Section ZoneCommands.

Lemma compare_Gt_lt k h :
  String_as_OT.compare k h = Gt -> String_as_OT.lt h k.
Proof.
  intros H. pose proof (String_as_OT.compare_spec k h) as S.
  rewrite H in S. now inversion S.
Qed.

Lemma compare_Eq_eq k h : String_as_OT.compare k h = Eq -> k = h.
Proof.
  intros H. pose proof (String_as_OT.compare_spec k h) as S.
  rewrite H in S. now inversion S.
Qed.

Lemma In_insert_key x k l : In x (insert_key k l) <-> x = k \/ In x l.
Proof.
  induction l as [|h t IH]; simpl.
  - intuition.
  - destruct (String_as_OT.compare k h) eqn:Hc; simpl.
    + apply compare_Eq_eq in Hc. subst h. intuition.
    + intuition.
    + rewrite IH. intuition.
Qed.

Lemma In_sorted_keys x ks : In x (sorted_keys ks) <-> In x ks.
Proof.
  induction ks as [|k ks IH]; simpl; [reflexivity|].
  rewrite In_insert_key, IH. intuition.
Qed.

Lemma insert_key_sorted k l :
  StronglySorted String_as_OT.lt l ->
  StronglySorted String_as_OT.lt (insert_key k l).
Proof.
  induction 1 as [|h t Ht IH Hall]; simpl.
  - repeat constructor.
  - destruct (String_as_OT.compare k h) eqn:Hc.
    + now constructor.
    + constructor; [now constructor|].
      constructor; [exact Hc|].
      eapply Forall_impl; [exact Hall|].
      intros x Hx. now transitivity h.
    + constructor; [exact IH|].
      apply List.Forall_forall. intros x Hx.
      apply In_insert_key in Hx as [->|Hx].
      * now apply compare_Gt_lt.
      * rewrite List.Forall_forall in Hall. now apply Hall.
Qed.

Lemma sorted_keys_sorted ks : StronglySorted String_as_OT.lt (sorted_keys ks).
Proof.
  induction ks as [|k ks IH]; simpl; [constructor|].
  now apply insert_key_sorted.
Qed.

Lemma sorted_NoDup l : StronglySorted String_as_OT.lt l -> NoDup l.
Proof.
  induction 1 as [|h t Ht IH Hall]; constructor; [|exact IH].
  intros Hin%list_elem_of_In. rewrite List.Forall_forall in Hall.
  exact (StrictOrder_Irreflexive h (Hall h Hin)).
Qed.

Lemma filter_zoned k df :
  Py.truthy k = true ->
  List.filter (fun r => String.eqb (Zone_Name r) k) (zoned df)
  = List.filter (fun r => String.eqb (Zone_Name r) k) df.
Proof.
  intros Hk. unfold zoned. induction df as [|r df IH]; [reflexivity|].
  simpl. destruct (Py.truthy (Zone_Name r)) eqn:Hr; simpl.
  - now rewrite IH.
  - destruct (String.eqb (Zone_Name r) k) eqn:He; [|exact IH].
    apply String.eqb_eq in He. congruence.
Qed.

Lemma In_zoned r df :
  In r (zoned df) <-> In r df /\ Py.truthy (Zone_Name r) = true.
Proof. unfold zoned. apply filter_In. Qed.

(** The early return for an empty [zoned_df] gives what the loop over the
    groups of an empty frame gives: no command. *)
Lemma generate_as_groupby df :
  generate_brocade_zone_commands df
  = map (fun g => zonecreate (fst g) (snd g)) (groupby_zone_name (zoned df)).
Proof.
  unfold generate_brocade_zone_commands. now destruct (zoned df).
Qed.

(** C4, as amended: one [zonecreate] command per distinct non-empty zone
    name of the records, the commands in ascending order of the zone name
    (the order of [groupby], which sorts its keys), each listing the
    aliases of the records of that zone in record order, joined by [;]. *)
Theorem zone_commands_grouped_sorted config_df :
  let keys := sorted_keys (map Zone_Name (zoned config_df)) in
  generate_brocade_zone_commands config_df
  = map (fun k => "zonecreate " +:+ dquote +:+ k +:+ dquote +:+ ", " +:+ dquote
           +:+ Py.join ";" (map Alias
                 (List.filter (fun r => String.eqb (Zone_Name r) k) config_df))
           +:+ dquote) keys /\
  StronglySorted String_as_OT.lt keys /\
  NoDup keys /\
  (forall k, In k keys <->
     Py.truthy k = true /\ exists r, In r config_df /\ Zone_Name r = k).
Proof.
  intros keys.
  assert (Hkeys : forall k, In k keys <->
            Py.truthy k = true /\ exists r, In r config_df /\ Zone_Name r = k).
  { intros k. unfold keys. rewrite In_sorted_keys, in_map_iff. split.
    - intros (r & <- & Hr). apply In_zoned in Hr as [Hr Ht]. eauto.
    - intros (Ht & r & Hr & <-). exists r. split; [reflexivity|].
      now apply In_zoned. }
  split; [|split; [apply sorted_keys_sorted|split;
             [apply sorted_NoDup, sorted_keys_sorted|exact Hkeys]]].
  rewrite generate_as_groupby. unfold groupby_zone_name. fold keys.
  rewrite map_map. apply map_ext_in. intros k Hk. cbn [fst snd].
  unfold zonecreate.
  apply Hkeys in Hk as [Ht _]. now rewrite (filter_zoned k config_df Ht).
Qed.

End ZoneCommands.

(** C4, against the claim: the zone seen first is [ZoneB], but the first
    command is the one of [ZoneA]; in first-seen order it would be the
    second. *)
Lemma zone_commands_not_first_seen :
  let r1 := mkPortRecord "1" "A1" "10:00:00:00:c9:11:22:33" "ZoneB" in
  let r2 := mkPortRecord "2" "A2" "10:00:00:00:c9:11:22:44" "ZoneA" in
  generate_brocade_zone_commands [r1; r2]
  = [zonecreate "ZoneA" [r2]; zonecreate "ZoneB" [r1]] /\
  zone_commands_first_seen [r1; r2]
  = [zonecreate "ZoneB" [r1]; zonecreate "ZoneA" [r2]] /\
  generate_brocade_zone_commands [r1; r2] <> zone_commands_first_seen [r1; r2].
Proof. vm_compute. repeat split. discriminate. Qed.

(** * Further properties *)

Example zones_ex1 :
  parse_zones_from_txt
    (Reads ["zone: Early"; "Host0";
            "Defined configuration:"; " zone:  Zone1"; ""; "   Host1; Host2 ;;"; "Host3"]
           None)
  = ({[ "Host1" := "Zone1"; "Host2" := "Zone1" ]}, []).
Proof. vm_compute. reflexivity. Qed.

Example alias_commands_ex1 :
  generate_brocade_alias_commands
    [mkPortRecord "3" " HostA " "10:00:00:00:c9:aa:bb:cc" "Z";
     mkPortRecord "4" "  " "10:00:00:00:c9:aa:bb:cd" "Z"]
  = ([alicreate "HostA" "10:00:00:00:c9:aa:bb:cc"],
     [IncompleteRowWarning 3 EmptyString "10:00:00:00:c9:aa:bb:cd"]).
Proof. vm_compute. reflexivity. Qed.

Example main_ex1 :
  main (Reads ["alias: Host1"; "   10:00:00:00:c9:11:22:33";
               "Defined configuration:"; "zone: Zone1"; "  Host1";
               "Index Port Address Media Speed State Proto";
               "  3  3  010300  id  N8  Online  FC  F-Port  10:00:00:00:c9:11:22:33"] None)
  = {| switch_commands :=
         Some [alicreate "Host1" "10:00:00:00:c9:11:22:33";
               "zonecreate " +:+ dquote +:+ "Zone1" +:+ dquote +:+ ", "
                 +:+ dquote +:+ "Host1" +:+ dquote];
       report := Some [mkPortRecord "3" "Host1" "10:00:00:00:c9:11:22:33" "Zone1"] |}.
Proof. vm_compute. reflexivity. Qed.

(** ** Stripping *)

Section StripFacts.

Lemma lstrip_head s :
  Py.lstrip s = EmptyString \/
  exists c t, Py.lstrip s = String c t /\ Py.isspace c = false.
Proof.
  induction s as [|c s IH]; simpl; [now left|].
  destruct (Py.isspace c) eqn:Hc; [exact IH|]. right. now exists c, s.
Qed.

Lemma rstrip_idempotent s : Py.rstrip (Py.rstrip s) = Py.rstrip s.
Proof.
  induction s as [|c s IH]; [reflexivity|]. cbn [Py.rstrip].
  destruct (Py.isspace c && Py.is_empty (Py.rstrip s)) eqn:Hc; [reflexivity|].
  cbn [Py.rstrip]. now rewrite IH, Hc.
Qed.

Lemma strip_idempotent s : Py.strip (Py.strip s) = Py.strip s.
Proof.
  unfold Py.strip.
  destruct (lstrip_head s) as [-> | (c & t & -> & Hc)]; [reflexivity|].
  cbn [Py.rstrip]. rewrite Hc. cbn [andb Py.lstrip]. rewrite Hc.
  cbn [Py.rstrip]. now rewrite rstrip_idempotent, Hc.
Qed.

End StripFacts.

Section StripMore.

Lemma rstrip_no_space s : no_space s = true -> Py.rstrip s = s.
Proof.
  unfold no_space. induction s as [|c s IH]; [reflexivity|].
  cbn [Py.all_chars Py.rstrip]. rewrite andb_true_iff, negb_true_iff.
  intros [Hc Hs]. now rewrite Hc, (IH Hs).
Qed.

Lemma strip_no_space s : no_space s = true -> Py.strip s = s.
Proof.
  intros H. unfold Py.strip.
  assert (Hl : Py.lstrip s = s).
  { destruct s as [|c s]; [reflexivity|]. unfold no_space in H.
    cbn [Py.all_chars] in H. apply andb_true_iff in H as [Hc _].
    apply negb_true_iff in Hc. simpl. now rewrite Hc. }
  rewrite Hl. now apply rstrip_no_space.
Qed.

Lemma no_space_app a b : no_space (a +:+ b) = no_space a && no_space b.
Proof. apply all_chars_app. Qed.

Lemma strip_clean s : Py.truthy (Py.strip s) = true -> clean_name (Py.strip s).
Proof. intros H. split; [apply strip_idempotent | exact H]. Qed.

(** The characters of a WWPN are no whitespace. *)
Lemma wwpn_char_no_space c :
  accepts wwpn_regex c = true -> negb (Py.isspace c) = true.
Proof.
  destruct c as [[] [] [] [] [] [] [] []]; vm_compute; congruence.
Qed.

Lemma digit_no_space c :
  Py.isdigit_char c = true -> negb (Py.isspace c) = true.
Proof.
  destruct c as [[] [] [] [] [] [] [] []]; vm_compute; congruence.
Qed.

End StripMore.

(** ** More on the WWPN matcher *)

Section WwpnMatcherMore.

(** A match depends on the matched characters only: what follows them can
    be replaced by anything. *)
Lemma match_prefix_local r :
  forall s m t, Re.match_prefix r s = Some (m, t) ->
  forall t', Re.match_prefix r (m +:+ t') = Some (m, t').
Proof.
  induction r as [p | a | r1 IH1 r2 IH2 | n r1 IH1]; intros s m t; simpl.
  - destruct s as [|c s]; [discriminate|].
    destruct (p c) eqn:Hp; [|discriminate].
    intros [= <- <-] t'. rewrite app_cons, app_empty_l. now rewrite Hp.
  - destruct s as [|c s]; [discriminate|].
    destruct (Ascii.eqb c a) eqn:Hp; [|discriminate].
    intros [= <- <-] t'. rewrite app_cons, app_empty_l. now rewrite Hp.
  - destruct (Re.match_prefix r1 s) as [[m1 t1]|] eqn:H1; [|discriminate].
    destruct (Re.match_prefix r2 t1) as [[m2 t2]|] eqn:H2; [|discriminate].
    intros [= <- <-] t'. rewrite string_app_assoc.
    now rewrite (IH1 _ _ _ H1 (m2 +:+ t')), (IH2 _ _ _ H2 t').
  - revert s m t. induction n as [|k IHk]; intros s m t.
    + intros [= <- <-] t'. now rewrite app_empty_l.
    + destruct (Re.match_prefix r1 s) as [[m1 t1]|] eqn:H1; [|discriminate].
      match goal with
      | |- context [match ?f k t1 with _ => _ end] =>
          destruct (f k t1) as [[m2 t2]|] eqn:H2
      end; [|discriminate].
      intros [= <- <-] t'. rewrite string_app_assoc.
      rewrite (IH1 _ _ _ H1 (m2 +:+ t')).
      now rewrite (IHk _ _ _ H2 t').
Qed.

Lemma wwpn_match_result line w :
  wwpn_match line = Some w ->
  is_wwpn w /\ String.length w = 23 /\ Py.lower w = w /\ wwpn_match w = Some w.
Proof.
  intros H.
  destruct (wwpn_match_found _ _ H) as (pre & post & _ & Hlen & Hc & Hm & _).
  assert (Hw : is_wwpn w).
  { unfold is_wwpn. rewrite <- (app_empty_r w) at 1.
    exact (match_prefix_local _ _ _ _ Hm EmptyString). }
  repeat split; auto using lower_fixed, wwpn_match_canonical.
Qed.

(** X1: what the matcher returns is a canonical WWPN: the pattern matches it
    from its first to its last character, it has 23 characters, [lower]
    leaves it as it is, and the matcher finds it again in itself. *)
Theorem wwpn_match_returns_canonical line w :
  wwpn_match line = Some w ->
  is_wwpn w /\ String.length w = 23 /\ Py.lower w = w /\ wwpn_match w = Some w.
Proof. apply wwpn_match_result. Qed.

(** X2: what the matcher returns stands in the line, at the leftmost position
    at which the pattern matches. *)
Theorem wwpn_match_leftmost line w :
  wwpn_match line = Some w ->
  exists pre post,
    line = pre +:+ w +:+ post /\
    (forall p1 p2, pre = p1 +:+ p2 -> p2 <> EmptyString ->
       Re.match_prefix wwpn_regex (p2 +:+ w +:+ post) = None).
Proof.
  intros H.
  destruct (wwpn_match_found _ _ H) as (pre & post & Hl & _ & _ & _ & Hleft).
  now exists pre, post.
Qed.

(** X3: a line of fewer than 23 characters holds no WWPN: 7 groups, or a group
    cut short, are not matched. *)
Theorem wwpn_match_short_line line :
  String.length line < 23 -> wwpn_match line = None.
Proof.
  intros H. unfold wwpn_match.
  now rewrite search_needs_width by (rewrite wwpn_width; exact H).
Qed.

(** A WWPN is not changed by [strip], and is not empty. *)
Lemma wwpn_clean w : is_wwpn w -> clean_name w.
Proof.
  intros Hw. destruct (match_prefix_ok _ _ _ _ Hw) as (_ & Hlen & Hc).
  split.
  - apply strip_no_space. unfold no_space.
    eapply all_chars_weaken; [|exact Hc]. apply wwpn_char_no_space.
  - destruct w; [discriminate Hlen | reflexivity].
Qed.

End WwpnMatcherMore.

Lemma wwpn_match_returns_canonical_witness :
  is_wwpn "10:00:00:00:c9:11:22:33" /\
  String.length "10:00:00:00:c9:11:22:33" = 23 /\
  Py.lower "10:00:00:00:c9:11:22:33" = "10:00:00:00:c9:11:22:33" /\
  wwpn_match "10:00:00:00:c9:11:22:33" = Some "10:00:00:00:c9:11:22:33".
Proof.
  apply (wwpn_match_returns_canonical
           "  3  3  010300  id  N8  Online  FC  F-Port  10:00:00:00:c9:11:22:33 ").
  vm_compute. reflexivity.
Defined.

Lemma wwpn_match_leftmost_witness :
  exists pre post,
    "xy:10:00:00:00:c9:11:22:33:44" = pre +:+ "10:00:00:00:c9:11:22:33" +:+ post /\
    (forall p1 p2, pre = p1 +:+ p2 -> p2 <> EmptyString ->
       Re.match_prefix wwpn_regex (p2 +:+ "10:00:00:00:c9:11:22:33" +:+ post) = None).
Proof.
  apply (wwpn_match_leftmost "xy:10:00:00:00:c9:11:22:33:44").
  vm_compute. reflexivity.
Defined.

Lemma wwpn_match_short_line_witness :
  wwpn_match "10:00:00:00:c9:11:22" = None.
Proof.
  apply (wwpn_match_short_line "10:00:00:00:c9:11:22"). vm_compute. lia.
Defined.

(** ** More on the alias section parser *)

Section AliasParserMore.

Lemma pending_truthy o name : pending o = Some name -> Py.truthy name = true.
Proof.
  destruct o as [n|]; simpl; [|discriminate].
  destruct (Py.truthy n) eqn:Hn; [now intros [= <-] | discriminate].
Qed.

Lemma alias_body_clean st line :
  (forall w name, alias_map st !! w = Some name -> is_wwpn w /\ clean_name name) ->
  (forall name, pending (last_alias_name st) = Some name -> clean_name name) ->
  (forall w name, alias_map (alias_body st line) !! w = Some name ->
     is_wwpn w /\ clean_name name) /\
  (forall name, pending (last_alias_name (alias_body st line)) = Some name ->
     clean_name name).
Proof.
  intros Hmap Hpend. unfold alias_body.
  destruct (Py.startswith (Py.strip line) "alias:").
  - destruct (Py.split_once ":" (Py.strip line)) as [|p0 [|p1 ps]];
      try (split; assumption).
    split; [exact Hmap|]. cbn [last_alias_name]. intros name Hn.
    pose proof (pending_truthy _ _ Hn) as Ht.
    apply pending_some in Hn. injection Hn as <-. now apply strip_clean.
  - destruct (pending (last_alias_name st)) as [name|] eqn:Hp;
      [|split; [exact Hmap | now rewrite Hp]].
    destruct (wwpn_match (Py.strip line)) as [w|] eqn:Hw;
      [|split; [exact Hmap | now rewrite Hp]].
    split; cbn; [|discriminate].
    intros w' name'. rewrite lookup_insert. case_decide as Heq.
    + intros [= <-]. subst w'. split; [|now apply Hpend].
      now apply (wwpn_match_result _ _ Hw).
    + apply Hmap.
Qed.

Lemma alias_loop_clean lines : forall st,
  (forall w name, alias_map st !! w = Some name -> is_wwpn w /\ clean_name name) ->
  (forall name, pending (last_alias_name st) = Some name -> clean_name name) ->
  forall w name, alias_map (alias_loop st lines) !! w = Some name ->
    is_wwpn w /\ clean_name name.
Proof.
  induction lines as [|l lines IH]; intros st Hmap Hpend; [exact Hmap|].
  rewrite alias_loop_cons.
  destruct (alias_body_clean st l Hmap Hpend) as [Hmap' Hpend'].
  now apply IH.
Qed.

Lemma alias_map_clean f w name :
  fst (parse_aliases_from_txt f) !! w = Some name ->
  is_wwpn w /\ clean_name name.
Proof.
  destruct f as [e|lines fault]; cbn [parse_aliases_from_txt fst].
  - now rewrite lookup_empty.
  - apply alias_loop_clean; cbn.
    + intros ? ?. now rewrite lookup_empty.
    + discriminate.
Qed.

(** X4: every key of the dictionary the alias parser returns is a canonical
    WWPN, and every value is a name that is not empty and has no whitespace
    around it, whatever the file holds and however its reading ends. *)
Theorem alias_map_well_formed f w name :
  fst (parse_aliases_from_txt f) !! w = Some name ->
  is_wwpn w /\ Py.strip name = name /\ Py.truthy name = true.
Proof. apply alias_map_clean. Qed.

(** A line that does not bind the WWPN [w] anew: an [alias:] line, or a line
    in which the matcher finds no WWPN or another one. *)
Lemma alias_body_keeps_binding st line w name :
  is_alias_line line = true \/ wwpn_match (Py.strip line) <> Some w ->
  alias_map st !! w = Some name ->
  alias_map (alias_body st line) !! w = Some name.
Proof.
  intros Hline Hw. unfold alias_body. unfold is_alias_line in Hline.
  destruct (Py.startswith (Py.strip line) "alias:").
  - now destruct (Py.split_once ":" (Py.strip line)) as [|p0 [|p1 ps]].
  - destruct Hline as [Hline|Hline]; [discriminate|].
    destruct (pending (last_alias_name st)); [|exact Hw].
    destruct (wwpn_match (Py.strip line)) as [w'|]; [|exact Hw].
    cbn. rewrite lookup_insert_ne; [exact Hw | congruence].
Qed.

(** X5: the last pairing of a WWPN wins: the name declared by an [alias:] line
    and the WWPN of the line after it are in the dictionary at the end,
    whatever the dictionary held for that WWPN before, provided no later
    line is consumed as a line of that same WWPN. *)
Theorem alias_last_pairing_wins st aline name wline w post :
  is_alias_line aline = true -> declared_name aline = Some name ->
  Py.truthy name = true ->
  is_alias_line wline = false -> wwpn_match (Py.strip wline) = Some w ->
  Forall (fun l => is_alias_line l = true \/ wwpn_match (Py.strip l) <> Some w) post ->
  alias_map (alias_loop st (aline :: wline :: post)) !! w = Some name.
Proof.
  intros Ha Hn Ht Hw Hm Hpost.
  rewrite !alias_loop_cons, (alias_body_alias _ _ _ Ha Hn).
  rewrite (alias_body_wwpn _ _ _ _ Ht Hw Hm).
  assert (Hinit : alias_map
            {| alias_map := <[w := name]> (alias_map st); last_alias_name := None |}
            !! w = Some name) by apply lookup_insert_eq.
  revert Hinit.
  generalize {| alias_map := <[w := name]> (alias_map st); last_alias_name := None |}.
  induction Hpost as [|l post Hl Hpost IH]; intros st' Hst'; [exact Hst'|].
  rewrite alias_loop_cons. apply IH. now apply alias_body_keeps_binding.
Qed.

End AliasParserMore.

Lemma alias_map_well_formed_witness :
  is_wwpn "10:00:00:00:c9:11:22:33" /\
  Py.strip "Host 1" = "Host 1" /\ Py.truthy "Host 1" = true.
Proof.
  apply (alias_map_well_formed
           (Reads ["  alias:   Host 1  "; "  xx 10:00:00:00:c9:11:22:33; 10:00:00:00:c9:11:22:44"]
                  (Some (OtherException "decode")))).
  vm_compute. reflexivity.
Defined.

Lemma alias_last_pairing_wins_witness :
  alias_map
    (alias_loop
       {| alias_map := {[ "10:00:00:00:c9:11:22:33" := "Old" ]};
          last_alias_name := None |}
       ["alias: New"; "  10:00:00:00:c9:11:22:33"; "alias: Other";
        "  10:00:00:00:c9:11:22:44"; "alias: 10:00:00:00:c9:11:22:33"])
    !! "10:00:00:00:c9:11:22:33" = Some "New".
Proof.
  apply (alias_last_pairing_wins
           {| alias_map := {[ "10:00:00:00:c9:11:22:33" := "Old" ]};
              last_alias_name := None |}
           "alias: New" "New" "  10:00:00:00:c9:11:22:33" "10:00:00:00:c9:11:22:33"
           ["alias: Other"; "  10:00:00:00:c9:11:22:44"; "alias: 10:00:00:00:c9:11:22:33"]);
    try (vm_compute; reflexivity).
  repeat constructor; vm_compute; discriminate.
Defined.

(** ** The zone section parser *)

Section ZoneParser.

Lemma zone_loop_cons st l rest :
  zone_loop st (l :: rest) = zone_loop (zone_body st l) rest.
Proof. reflexivity. Qed.

Lemma zone_loop_app st l1 l2 :
  zone_loop st (l1 ++ l2) = zone_loop (zone_loop st l1) l2.
Proof. unfold zone_loop. apply fold_left_app. Qed.

Lemma zone_body_outside st line :
  in_defined_config st = false -> is_config_marker line = false ->
  zone_body st line = st.
Proof.
  unfold is_config_marker, zone_body. intros Hin ->. now rewrite Hin.
Qed.

Lemma zone_loop_outside st lines :
  in_defined_config st = false ->
  forallb (fun l => negb (is_config_marker l)) lines = true ->
  zone_loop st lines = st.
Proof.
  intros Hin. induction lines as [|l lines IH]; [reflexivity|].
  cbn [forallb]. rewrite andb_true_iff, negb_true_iff. intros [Hl Hrest].
  now rewrite zone_loop_cons, zone_body_outside, IH.
Qed.

(** X6: nothing is read before the block begins: in a file none of whose
    lines, stripped, starts with [Defined configuration:], no [zone:] line
    counts and the dictionary returned is empty. *)
Theorem zones_need_marker f :
  forallb (fun l => negb (is_config_marker l)) (lines_read f) = true ->
  fst (parse_zones_from_txt f) = ∅.
Proof.
  destruct f as [e|lines fault]; cbn; [reflexivity|].
  intros H. now rewrite zone_loop_outside.
Qed.

Lemma zone_line_not_marker line :
  is_zone_line line = true -> is_config_marker line = false /\ is_blank line = false.
Proof.
  unfold is_zone_line, is_config_marker, is_blank. intros H.
  destruct (startswith_app _ _ H) as [rest ->]. now split.
Qed.

Lemma zone_body_zone st line zone :
  in_defined_config st = true ->
  is_zone_line line = true -> declared_name line = Some zone ->
  zone_body st line
  = {| alias_to_zone_map := alias_to_zone_map st;
       current_zone_name := Some zone; in_defined_config := true |}.
Proof.
  intros Hin Hz Hn. destruct (zone_line_not_marker _ Hz) as [Hm Hb].
  unfold is_zone_line, is_config_marker, is_blank, declared_name in *.
  unfold zone_body. rewrite Hm, Hin, Hz. unfold Py.truthy. rewrite Hb. cbn.
  destruct (Py.split_once ":" (Py.strip line)) as [|p0 [|p1 ps]]; try discriminate.
  now injection Hn as ->.
Qed.

Lemma zone_body_blank st line : is_blank line = true -> zone_body st line = st.
Proof.
  unfold is_blank, zone_body. intros Hb.
  destruct (Py.strip line); [|discriminate]. cbn.
  now rewrite orb_true_r.
Qed.

Lemma zone_loop_blank st blanks :
  forallb is_blank blanks = true -> zone_loop st blanks = st.
Proof.
  induction blanks as [|l blanks IH]; [reflexivity|].
  cbn [forallb]. rewrite andb_true_iff. intros [Hl Hrest].
  now rewrite zone_loop_cons, zone_body_blank, IH.
Qed.

Lemma zone_body_members st line zone :
  in_defined_config st = true -> pending (current_zone_name st) = Some zone ->
  is_member_line line = true ->
  zone_body st line
  = {| alias_to_zone_map :=
         assign_members zone (zone_members (Py.strip line)) (alias_to_zone_map st);
       current_zone_name := None; in_defined_config := true |}.
Proof.
  unfold is_member_line, is_config_marker, is_blank, is_zone_line, zone_body.
  rewrite !andb_true_iff, !negb_true_iff. intros Hin Hp [[Hm Hb] Hz].
  rewrite Hm, Hin, Hz, Hp. unfold Py.truthy. now rewrite Hb.
Qed.

(** With no zone awaiting its members, only a [zone:] line changes the
    state of a scan that is inside the block. *)
Lemma zone_body_idle st line :
  in_defined_config st = true -> current_zone_name st = None ->
  is_zone_line line = false -> zone_body st line = st.
Proof.
  unfold is_zone_line, zone_body. intros Hin Hc Hz. rewrite Hin, Hz, Hc.
  destruct st as [m c i]; cbn in *; subst.
  destruct (Py.startswith (Py.strip line) "Defined configuration:"); [reflexivity|].
  now destruct (negb (Py.truthy (Py.strip line))).
Qed.

Lemma zone_loop_idle st more :
  in_defined_config st = true -> current_zone_name st = None ->
  forallb (fun l => negb (is_zone_line l)) more = true ->
  zone_loop st more = st.
Proof.
  intros Hin Hc. induction more as [|l more IH]; [reflexivity|].
  cbn [forallb]. rewrite andb_true_iff, negb_true_iff. intros [Hl Hrest].
  now rewrite zone_loop_cons, zone_body_idle, IH.
Qed.

(** X7: the members of a zone are read from one line only.  Inside the block,
    after a [zone:] line that declares a non-empty name, blank lines are
    passed over, the first line that is not blank gives the members, and
    whatever follows up to the next [zone:] line, a continuation of the
    member list included, changes nothing. *)
Theorem zone_members_from_one_line st zline zone blanks mline more :
  in_defined_config st = true ->
  is_zone_line zline = true -> declared_name zline = Some zone ->
  Py.truthy zone = true ->
  forallb is_blank blanks = true ->
  is_member_line mline = true ->
  forallb (fun l => negb (is_zone_line l)) more = true ->
  zone_loop st (zline :: blanks ++ mline :: more)
  = {| alias_to_zone_map :=
         assign_members zone (zone_members (Py.strip mline)) (alias_to_zone_map st);
       current_zone_name := None; in_defined_config := true |}.
Proof.
  intros Hin Hz Hn Ht Hb Hm Hmore.
  rewrite zone_loop_cons, (zone_body_zone _ _ _ Hin Hz Hn).
  rewrite zone_loop_app, (zone_loop_blank _ _ Hb), zone_loop_cons.
  rewrite (zone_body_members _ _ zone); cbn; auto; [|now rewrite Ht].
  now apply zone_loop_idle.
Qed.

Lemma assign_members_lookup zone members : forall (m : gmap string string) a,
  assign_members zone members m !! a
  = if decide (a ∈ members) then Some zone else m !! a.
Proof.
  unfold assign_members.
  induction members as [|x members IH]; intros m a; cbn [fold_left].
  - now rewrite decide_False by apply not_elem_of_nil.
  - rewrite IH. destruct (decide (a ∈ members)) as [Hin|Hnin].
    + now rewrite decide_True by now right.
    + rewrite lookup_insert. destruct (decide (x = a)) as [->|Hne].
      * now rewrite decide_True by now left.
      * rewrite decide_False; [reflexivity|].
        intros [->|?]%elem_of_cons; congruence.
Qed.

(** X8: a members line binds each alias it lists to the pending zone, whatever
    zone the alias had before, and leaves every other alias as it was. *)
Theorem zone_members_line_lookup st zone mline a :
  in_defined_config st = true -> pending (current_zone_name st) = Some zone ->
  is_member_line mline = true ->
  alias_to_zone_map (zone_body st mline) !! a
  = if decide (a ∈ zone_members (Py.strip mline)) then Some zone
    else alias_to_zone_map st !! a.
Proof.
  intros Hin Hp Hm. rewrite (zone_body_members _ _ _ Hin Hp Hm). cbn.
  apply assign_members_lookup.
Qed.

End ZoneParser.

Lemma zones_need_marker_witness :
  fst (parse_zones_from_txt
         (Reads ["Effective configuration:"; " zone: Zone1"; "   Host1; Host2"] None))
  = ∅.
Proof.
  apply (zones_need_marker
           (Reads ["Effective configuration:"; " zone: Zone1"; "   Host1; Host2"] None)).
  vm_compute. reflexivity.
Defined.

Lemma zone_members_from_one_line_witness :
  zone_loop {| alias_to_zone_map := ∅; current_zone_name := None;
               in_defined_config := true |}
    (" zone:  Zone1" :: [""; "   "] ++ "   Host1; Host2;" :: ["   Host3; Host4"; "cfg: c1"])
  = {| alias_to_zone_map :=
         assign_members "Zone1" (zone_members (Py.strip "   Host1; Host2;")) ∅;
       current_zone_name := None; in_defined_config := true |}.
Proof.
  apply (zone_members_from_one_line
           {| alias_to_zone_map := ∅; current_zone_name := None;
              in_defined_config := true |}
           " zone:  Zone1" "Zone1" [""; "   "] "   Host1; Host2;"
           ["   Host3; Host4"; "cfg: c1"]); vm_compute; reflexivity.
Defined.

Lemma zone_members_line_lookup_witness :
  alias_to_zone_map
    (zone_body {| alias_to_zone_map := {[ "Host1" := "ZoneOld" ]};
                  current_zone_name := Some "ZoneNew";
                  in_defined_config := true |} "  Host2; Host1 ") !! "Host1"
  = if decide ("Host1" ∈ zone_members (Py.strip "  Host2; Host1 ")) then Some "ZoneNew"
    else ({[ "Host1" := "ZoneOld" ]} : gmap string string) !! "Host1".
Proof.
  apply (zone_members_line_lookup
           {| alias_to_zone_map := {[ "Host1" := "ZoneOld" ]};
              current_zone_name := Some "ZoneNew";
              in_defined_config := true |} "ZoneNew" "  Host2; Host1 " "Host1");
    vm_compute; reflexivity.
Defined.

(** ** Member lists: splitting and joining *)

Section MemberLists.

Lemma all_chars_lstrip p s :
  Py.all_chars p s = true -> Py.all_chars p (Py.lstrip s) = true.
Proof.
  induction s as [|c s IH]; [auto|]. intros H. simpl.
  destruct (Py.isspace c); [|exact H].
  apply IH. cbn [Py.all_chars] in H. now apply andb_true_iff in H as [_ H].
Qed.

Lemma all_chars_rstrip p s :
  Py.all_chars p s = true -> Py.all_chars p (Py.rstrip s) = true.
Proof.
  induction s as [|c s IH]; [auto|]. cbn [Py.all_chars Py.rstrip].
  rewrite andb_true_iff. intros [Hc Hs].
  destruct (Py.isspace c && Py.is_empty (Py.rstrip s)); [reflexivity|].
  cbn [Py.all_chars]. now rewrite Hc, IH.
Qed.

Lemma all_chars_strip p s :
  Py.all_chars p s = true -> Py.all_chars p (Py.strip s) = true.
Proof. intros H. now apply all_chars_rstrip, all_chars_lstrip. Qed.

Lemma split_on_not_nil sep s : Py.split_on sep s <> [].
Proof.
  destruct s as [|c s]; [discriminate|]. simpl.
  destruct (Ascii.eqb c sep); [discriminate|].
  now destruct (Py.split_on sep s).
Qed.

(** No piece of [s.split(';')] holds a semicolon. *)
Lemma split_on_pieces s piece :
  In piece (Py.split_on ";" s) -> no_semicolon piece = true.
Proof.
  revert piece. induction s as [|c s IH]; intros piece; simpl.
  - now intros [<-|[]].
  - destruct (Ascii.eqb c ";") eqn:Hc.
    + intros [<-|H]; [reflexivity | now apply IH].
    + destruct (Py.split_on ";" s) as [|h rest] eqn:Hs.
      * intros [<-|[]]. unfold no_semicolon. simpl. now rewrite Hc.
      * intros [<-|H].
        -- unfold no_semicolon. cbn [Py.all_chars]. rewrite Hc.
           apply (IH h). now left.
        -- apply IH. now right.
Qed.

Lemma split_on_whole s : no_semicolon s = true -> Py.split_on ";" s = [s].
Proof.
  unfold no_semicolon. induction s as [|c s IH]; [reflexivity|].
  cbn [Py.all_chars Py.split_on]. rewrite andb_true_iff, negb_true_iff.
  intros [Hc Hs]. now rewrite Hc, (IH Hs).
Qed.

Lemma split_on_first a b :
  no_semicolon a = true ->
  Py.split_on ";" (a +:+ String ";" b) = a :: Py.split_on ";" b.
Proof.
  unfold no_semicolon. induction a as [|c a IH].
  - intros _. rewrite app_empty_l. reflexivity.
  - cbn [Py.all_chars]. rewrite andb_true_iff, negb_true_iff. intros [Hc Ha].
    rewrite app_cons. cbn [Py.split_on]. now rewrite Hc, (IH Ha).
Qed.

(** Splitting undoes joining, for names without semicolon. *)
Lemma split_on_join items :
  items <> [] ->
  (forall a, In a items -> no_semicolon a = true) ->
  Py.split_on ";" (Py.join ";" items) = items.
Proof.
  induction items as [|x items IH]; [congruence|]. intros _ Hall.
  destruct items as [|y items].
  - cbn [Py.join]. apply split_on_whole, Hall. now left.
  - change (Py.join ";" (x :: y :: items))
      with (x +:+ String ";" (Py.join ";" (y :: items))).
    rewrite split_on_first by (apply Hall; now left).
    rewrite IH; [reflexivity | discriminate |].
    intros a Ha. apply Hall. now right.
Qed.

Lemma In_zone_members a line :
  In a (zone_members line) ->
  exists piece, In piece (Py.split_on ";" line) /\ a = Py.strip piece /\
                Py.truthy a = true.
Proof.
  unfold zone_members. rewrite in_map_iff.
  intros (piece & <- & H). apply filter_In in H as [Hin Ht]. now exists piece.
Qed.

(** The members read from a line are names that are not empty, have no
    whitespace around them and hold no semicolon. *)
Lemma zone_members_clean a line :
  In a (zone_members line) -> clean_name a /\ no_semicolon a = true.
Proof.
  intros (piece & Hin & -> & Ht)%In_zone_members. split.
  - now apply strip_clean.
  - apply all_chars_strip. now apply split_on_pieces in Hin.
Qed.

(** X10: reading back a member list: the [;]-joined list of a [zonecreate]
    command, read as the zone parser reads a members line, gives the
    aliases that were joined, in their order, when each of them is a name
    that is not empty, has no whitespace around it and holds no semicolon. *)
Theorem zone_members_of_join aliases :
  (forall a, In a aliases -> clean_name a /\ no_semicolon a = true) ->
  zone_members (Py.join ";" aliases) = aliases.
Proof.
  intros Hall. unfold zone_members.
  destruct aliases as [|x aliases]; [reflexivity|].
  rewrite split_on_join; [|discriminate|intros a Ha; now apply Hall].
  set (items := x :: aliases) in *.
  assert (Hkeep : List.filter (fun member => Py.truthy (Py.strip member)) items = items).
  { apply forallb_filter_id. apply forallb_forall. intros a Ha.
    destruct (Hall a Ha) as [[Hs Ht] _]. now rewrite Hs. }
  rewrite Hkeep. rewrite <- (map_id items) at 2.
  apply map_ext_in. intros a Ha. now destruct (Hall a Ha) as [[Hs _] _].
Qed.

End MemberLists.

Lemma zone_members_of_join_witness :
  zone_members (Py.join ";" ["Host1"; "Port_3"; "my host"])
  = ["Host1"; "Port_3"; "my host"].
Proof.
  apply (zone_members_of_join ["Host1"; "Port_3"; "my host"]).
  intros a [<-|[<-|[<-|[]]]]; vm_compute; auto.
Defined.

(** ** Invariants of the zone dictionary *)

Section ZoneInvariant.

Lemma zone_body_clean st line :
  (forall a z, alias_to_zone_map st !! a = Some z ->
     clean_name a /\ no_semicolon a = true /\ clean_name z) ->
  (forall z, pending (current_zone_name st) = Some z -> clean_name z) ->
  (forall a z, alias_to_zone_map (zone_body st line) !! a = Some z ->
     clean_name a /\ no_semicolon a = true /\ clean_name z) /\
  (forall z, pending (current_zone_name (zone_body st line)) = Some z ->
     clean_name z).
Proof.
  intros Hmap Hpend. unfold zone_body.
  destruct (Py.startswith (Py.strip line) "Defined configuration:");
    [split; assumption|].
  destruct (negb (in_defined_config st) || negb (Py.truthy (Py.strip line)));
    [split; assumption|].
  destruct (Py.startswith (Py.strip line) "zone:").
  - split; [exact Hmap|]. cbn [current_zone_name].
    destruct (Py.split_once ":" (Py.strip line)) as [|p0 [|p1 ps]];
      try discriminate.
    intros z Hz. pose proof (pending_truthy _ _ Hz) as Ht.
    apply pending_some in Hz. injection Hz as <-. now apply strip_clean.
  - destruct (pending (current_zone_name st)) as [zone|] eqn:Hp;
      [|split; [exact Hmap | now rewrite Hp]].
    split; cbn; [|discriminate].
    intros a z. rewrite assign_members_lookup.
    destruct (decide (a ∈ zone_members (Py.strip line))) as [Hin|Hnin];
      [|apply Hmap].
    intros [= <-]. apply list_elem_of_In in Hin.
    destruct (zone_members_clean _ _ Hin) as [Ha Hs].
    repeat split; try apply Ha; try exact Hs; now apply Hpend.
Qed.

Lemma zone_loop_clean lines : forall st,
  (forall a z, alias_to_zone_map st !! a = Some z ->
     clean_name a /\ no_semicolon a = true /\ clean_name z) ->
  (forall z, pending (current_zone_name st) = Some z -> clean_name z) ->
  forall a z, alias_to_zone_map (zone_loop st lines) !! a = Some z ->
    clean_name a /\ no_semicolon a = true /\ clean_name z.
Proof.
  induction lines as [|l lines IH]; intros st Hmap Hpend; [exact Hmap|].
  rewrite zone_loop_cons.
  destruct (zone_body_clean st l Hmap Hpend) as [Hmap' Hpend'].
  now apply IH.
Qed.

(** X9: every key of the dictionary the zone parser returns is an alias name
    that is not empty, has no whitespace around it and holds no semicolon,
    and every value is a zone name that is not empty and has no whitespace
    around it, whatever the file holds and however its reading ends. *)
Theorem zone_map_well_formed f a z :
  fst (parse_zones_from_txt f) !! a = Some z ->
  (Py.strip a = a /\ Py.truthy a = true) /\ no_semicolon a = true /\
  (Py.strip z = z /\ Py.truthy z = true).
Proof.
  destruct f as [e|lines fault]; cbn [parse_zones_from_txt fst].
  - now rewrite lookup_empty.
  - apply zone_loop_clean; cbn.
    + intros ? ?. now rewrite lookup_empty.
    + discriminate.
Qed.

End ZoneInvariant.

Lemma zone_map_well_formed_witness :
  (Py.strip "Host2" = "Host2" /\ Py.truthy "Host2" = true) /\
  no_semicolon "Host2" = true /\
  (Py.strip "Zone 1" = "Zone 1" /\ Py.truthy "Zone 1" = true).
Proof.
  apply (zone_map_well_formed
           (Reads ["Defined configuration:"; " zone:  Zone 1 "; " Host1 ;; Host2 ; "]
                  (Some (OtherException "decode")))).
  vm_compute. reflexivity.
Defined.

(** ** The alias command generator *)

Section AliasCommands.

Lemma alias_commands_from k : forall df cs ws,
  fold_left alias_command_body (combine (seq k (length df)) df) (cs, ws)
  = (cs ++ map row_command (List.filter complete_row df),
     ws ++ map row_warning
             (List.filter (fun ir => negb (complete_row (snd ir)))
                          (combine (seq k (length df)) df))).
Proof.
  intros df. revert k. induction df as [|r df IH]; intros k cs ws.
  - cbn. now rewrite !app_nil_r.
  - cbn [length seq combine fold_left List.filter alias_command_body snd].
    fold (complete_row r). destruct (complete_row r) eqn:Hr; cbn [negb].
    + rewrite IH. cbn [map]. unfold row_command at 2.
      now rewrite <- app_assoc.
    + rewrite IH. cbn [map]. unfold row_warning at 2. cbn [fst snd].
      now rewrite <- app_assoc.
Qed.

Lemma filter_split_length {A} (p : A -> bool) l :
  length (List.filter p l) + length (List.filter (fun x => negb (p x)) l)
  = length l.
Proof.
  induction l as [|x l IH]; [reflexivity|]. simpl.
  destruct (p x); simpl; lia.
Qed.

Lemma filter_indexed_length {A} (p : A -> bool) l : forall k,
  length (List.filter (fun ir => p (snd ir)) (combine (seq k (length l)) l))
  = length (List.filter p l).
Proof.
  induction l as [|x l IH]; intros k; [reflexivity|].
  cbn [length seq combine List.filter snd].
  destruct (p x); cbn [length]; now rewrite IH.
Qed.

(** X11: each row gives either its command or a warning, never both and never
    neither.  The commands are those of the rows whose alias and WWPN are
    not empty once stripped, in row order, each with the stripped values;
    the warnings are those of the other rows, each numbered with the row's
    index plus 2; together they are as many as the rows. *)
Theorem alias_commands_characterised df :
  fst (generate_brocade_alias_commands df)
  = map row_command (List.filter complete_row df) /\
  snd (generate_brocade_alias_commands df)
  = map row_warning
      (List.filter (fun ir => negb (complete_row (snd ir))) (iterrows df)) /\
  length (fst (generate_brocade_alias_commands df))
  + length (snd (generate_brocade_alias_commands df)) = length df.
Proof.
  unfold generate_brocade_alias_commands, iterrows.
  rewrite alias_commands_from. cbn [fst snd app].
  repeat split.
  rewrite !length_map.
  rewrite (filter_indexed_length (fun r => negb (complete_row r))).
  apply filter_split_length.
Qed.

(** When no row has an empty alias or WWPN, every row gives its command and
    nothing is written to stderr. *)
Lemma alias_commands_all_complete df :
  (forall r, In r df -> complete_row r = true) ->
  generate_brocade_alias_commands df = (map row_command df, []).
Proof.
  intros Hall. unfold generate_brocade_alias_commands, iterrows.
  rewrite alias_commands_from. cbn [app].
  assert (H1 : List.filter complete_row df = df).
  { apply forallb_filter_id, forallb_forall. exact Hall. }
  rewrite H1. f_equal.
  assert (H2 : forall k, List.filter (fun ir : nat * PortRecord => negb (complete_row (snd ir)))
                 (combine (seq k (length df)) df) = []).
  { clear H1. induction df as [|r df IH]; intros k; [reflexivity|].
    cbn [length seq combine List.filter snd].
    rewrite (Hall r) by now left. cbn [negb]. apply IH.
    intros r' Hr'. apply Hall. now right. }
  now rewrite H2.
Qed.

End AliasCommands.

(** ** Rows of the port table *)

Section PortRows.

Variables existing_aliases existing_zones : gmap string string.

Local Abbreviation body := (switchshow_body existing_aliases existing_zones).
Local Abbreviation loop := (switchshow_loop existing_aliases existing_zones).
Local Abbreviation parse := (parse_switchshow_from_txt existing_aliases existing_zones).
Local Abbreviation row_of := (row_of_line existing_aliases existing_zones).
Local Abbreviation well_formed := (well_formed_row existing_aliases existing_zones).

Lemma port_row_well_formed line m row :
  Re.search wwpn_regex line = Some m ->
  port_row existing_aliases existing_zones line m = Some row ->
  well_formed row.
Proof.
  intros Hs Hrow.
  assert (Hw : is_wwpn (Py.lower m)).
  { apply (wwpn_match_result line). unfold wwpn_match. now rewrite Hs. }
  unfold port_row, dict_get in Hrow.
  destruct ((1 <? length (Py.split line))%nat
            && Py.isdigit (hd EmptyString (Py.split line))) eqn:Hg; [|discriminate].
  apply andb_true_iff in Hg as [_ Hd]. injection Hrow as <-.
  now repeat split.
Qed.

Lemma row_of_line_well_formed raw row : row_of raw = Some row -> well_formed row.
Proof.
  unfold row_of_line.
  destruct (Re.search wwpn_regex (Py.strip raw)) as [m|] eqn:Hs; [|discriminate].
  destruct (Py.contains "F-Port" (Py.strip raw) && Py.contains "Online" (Py.strip raw));
    [|discriminate].
  now apply port_row_well_formed.
Qed.

(** An iteration adds at most one row, the row of its line. *)
Lemma body_rows st raw :
  port_data (snd (body st raw)) = port_data st \/
  exists row, row_of raw = Some row /\
              port_data (snd (body st raw)) = port_data st ++ [row].
Proof.
  unfold switchshow_body, row_of_line.
  destruct (Py.startswith (Py.strip raw) "Index Port Address"); [now left|].
  destruct (negb (in_switchshow_section st)); [now left|].
  destruct (Py.contains "admin>" (Py.strip raw)); [now left|].
  destruct (Re.search wwpn_regex (Py.strip raw)) as [m|]; [|now left].
  destruct (Py.contains "F-Port" (Py.strip raw) && Py.contains "Online" (Py.strip raw));
    [|now left].
  destruct (port_row existing_aliases existing_zones (Py.strip raw) m) as [row|];
    [|now left].
  right. now exists row.
Qed.

Lemma loop_rows lines : forall st r,
  In r (port_data (snd (loop st lines))) ->
  In r (port_data st) \/ exists raw, In raw lines /\ row_of raw = Some r.
Proof.
  induction lines as [|raw lines IH]; intros st r; cbn [switchshow_loop].
  - now left.
  - pose proof (body_rows st raw) as Hb.
    destruct (body st raw) as [[] st1] eqn:Hbody; cbn [snd] in *.
    + intros Hr. destruct (IH _ _ Hr) as [Hin|(raw' & Hin & Hrow)].
      * destruct Hb as [Heq|(row & Hrow & Heq)]; rewrite Heq in Hin.
        -- now left.
        -- apply in_app_or in Hin as [Hin|[<-|[]]]; [now left|].
           right. exists raw. split; [now left | exact Hrow].
      * right. exists raw'. split; [now right | exact Hrow].
    + intros Hr. destruct Hb as [Heq|(row & Hrow & Heq)]; rewrite Heq in Hr.
      * now left.
      * apply in_app_or in Hr as [Hin|[<-|[]]]; [now left|].
        right. exists raw. split; [now left | exact Hrow].
Qed.

Lemma parse_some_rows file_path f df :
  fst (parse file_path f) = Some df ->
  df <> [] /\ df = port_data (snd (loop switchshow_init (lines_read f))).
Proof.
  unfold parse_switchshow_from_txt.
  destruct f as [e|lines [e|]]; cbn [lines_read]; try discriminate;
    destruct (loop switchshow_init lines) as [[] st]; cbn [fst snd];
    try discriminate; destruct (port_data st); cbn; try discriminate;
    intros [= <-]; now split.
Qed.

Lemma parse_rows_well_formed file_path f df :
  fst (parse file_path f) = Some df ->
  df <> [] /\
  forall r, In r df ->
    well_formed r /\ exists raw, In raw (lines_read f) /\ row_of raw = Some r.
Proof.
  intros H. destruct (parse_some_rows _ _ _ H) as [Hne ->].
  split; [exact Hne|]. intros r Hr.
  destruct (loop_rows _ _ _ Hr) as [[]|(raw & Hin & Hrow)].
  split; [now apply (row_of_line_well_formed raw) | now exists raw].
Qed.


(** A header line gives no row: its first token is not made of digits. *)
Lemma header_line_no_row raw : is_header_line raw = true -> row_of raw = None.
Proof.
  unfold is_header_line, row_of_line. intros H.
  destruct (startswith_app _ _ H) as [rest ->].
  destruct (Re.search wwpn_regex _) as [m|]; [|reflexivity].
  destruct (_ && _); [|reflexivity].
  unfold port_row.
  assert (Hd : Py.isdigit (hd EmptyString (Py.split ("Index Port Address" +:+ rest)))
               = false).
  { rewrite !app_cons, app_empty_l. unfold Py.split.
    cbv - [Py.split_ws_from]. reflexivity. }
  now rewrite Hd, andb_false_r.
Qed.

End PortRows.

(** ** The port table, line by line *)

Section PortTable.

Variables existing_aliases existing_zones : gmap string string.

Local Abbreviation body := (switchshow_body existing_aliases existing_zones).
Local Abbreviation loop := (switchshow_loop existing_aliases existing_zones).
Local Abbreviation parse := (parse_switchshow_from_txt existing_aliases existing_zones).
Local Abbreviation row_of := (row_of_line existing_aliases existing_zones).

Lemma body_in_section st raw :
  in_switchshow_section st = true ->
  is_header_line raw = true \/ Py.contains "admin>" (Py.strip raw) = false ->
  body st raw
  = (Next, {| in_switchshow_section := true;
              port_data := port_data st ++ from_option (fun r => [r]) [] (row_of raw) |}).
Proof.
  intros Hin Hline.
  destruct (is_header_line raw) eqn:Hh.
  - rewrite (header_line_no_row _ _ _ Hh). cbn. rewrite app_nil_r.
    unfold is_header_line in Hh. unfold switchshow_body. now rewrite Hh.
  - destruct Hline as [|Hadm]; [discriminate|].
    unfold is_header_line in Hh. unfold switchshow_body, row_of_line.
    rewrite Hh, Hin, Hadm. cbn [negb].
    destruct st as [i rows]; cbn in *; subst i.
    destruct (Re.search wwpn_regex (Py.strip raw)) as [m|];
      [|cbn; now rewrite app_nil_r].
    destruct (Py.contains "F-Port" (Py.strip raw) && Py.contains "Online" (Py.strip raw));
      [|cbn; now rewrite app_nil_r].
    destruct (port_row existing_aliases existing_zones (Py.strip raw) m);
      cbn; [reflexivity | now rewrite app_nil_r].
Qed.

Lemma loop_in_section section : forall st,
  in_switchshow_section st = true ->
  Forall (fun l => is_header_line l = true \/
                   Py.contains "admin>" (Py.strip l) = false) section ->
  loop st section
  = (Next, {| in_switchshow_section := true;
              port_data := port_data st ++ omap row_of section |}).
Proof.
  induction section as [|l section IH]; intros st Hin Hall.
  - cbn. rewrite app_nil_r. now destruct st as [i rows]; cbn in *; subst i.
  - apply Forall_cons in Hall as [Hl Hall]. cbn [switchshow_loop].
    rewrite (body_in_section _ _ Hin Hl), IH by (cbn; auto). cbn [port_data].
    rewrite <- app_assoc. do 3 f_equal. cbn [omap list_omap].
    now destruct (row_of l).
Qed.


(** The same when the file ends inside the table and is read to its end. *)
Lemma port_table_rows_to_end file_path pre header section :
  forallb (fun l => negb (is_header_line l)) pre = true ->
  is_header_line header = true ->
  Forall (fun l => is_header_line l = true \/
                   Py.contains "admin>" (Py.strip l) = false) section ->
  parse file_path (Reads (pre ++ header :: section) None)
  = (frame_or_none (omap row_of section), []).
Proof.
  intros Hpre Hh Hsec.
  pose proof (loop_outside_section existing_aliases existing_zones pre [] Hpre)
    as Hloop.
  unfold parse_switchshow_from_txt.
  rewrite (loop_app _ _ _ _ _ _ Hloop). cbn [switchshow_loop].
  assert (Hb : body {| in_switchshow_section := false; port_data := [] |} header
               = (Next, {| in_switchshow_section := true; port_data := [] |})).
  { unfold switchshow_body. unfold is_header_line in Hh. now rewrite Hh. }
  rewrite Hb.
  now rewrite (loop_in_section section
                 {| in_switchshow_section := true; port_data := [] |} eq_refl Hsec).
Qed.

Lemma rows_all_give_commands file_path f df :
  (forall w name, existing_aliases !! w = Some name -> clean_name name) ->
  fst (parse file_path f) = Some df ->
  generate_brocade_alias_commands df
  = (map (fun r => alicreate (Alias r) (WWPN r)) df, []).
Proof.
  intros Hclean Hdf.
  destruct (parse_rows_well_formed _ _ _ _ _ Hdf) as [_ Hrows].
  assert (Hrow : forall r, In r df ->
            Py.strip (Alias r) = Alias r /\ Py.strip (WWPN r) = WWPN r /\
            complete_row r = true).
  { intros r Hr. destruct (Hrows r Hr) as [(Hd & Hw & Ha & _) _].
    destruct (wwpn_clean _ Hw) as [Hws Hwt].
    assert (Hac : clean_name (Alias r)).
    { rewrite Ha. destruct (existing_aliases !! WWPN r) as [name|] eqn:Hl; cbn.
      - now apply (Hclean (WWPN r)).
      - split; [|reflexivity]. apply strip_no_space.
        rewrite no_space_app. apply andb_true_iff. split; [reflexivity|].
        unfold Py.isdigit in Hd. apply andb_true_iff in Hd as [_ Hd].
        unfold no_space. eapply all_chars_weaken; [|exact Hd].
        apply digit_no_space. }
    destruct Hac as [Has Hat]. unfold complete_row.
    now rewrite Has, Hws, Hat, Hwt. }
  rewrite alias_commands_all_complete by (intros r Hr; now apply Hrow).
  f_equal. apply map_ext_in. intros r Hr. unfold row_command.
  destruct (Hrow r Hr) as (-> & -> & _). reflexivity.
Qed.

(** X14: with an alias dictionary whose names are not empty and have no
    whitespace around them, as the alias parser builds it, no row of the
    port table is skipped by the alias command generator: each row gives
    the command [alicreate] with exactly its alias and its WWPN, in row
    order, and no warning is written. *)
Theorem port_rows_all_give_commands file_path f df :
  (forall w name, existing_aliases !! w = Some name ->
     Py.strip name = name /\ Py.truthy name = true) ->
  fst (parse file_path f) = Some df ->
  generate_brocade_alias_commands df
  = (map (fun r => alicreate (Alias r) (WWPN r)) df, []).
Proof. apply rows_all_give_commands. Qed.

Lemma parse_without_header file_path f :
  forallb (fun l => negb (is_header_line l)) (lines_read f) = true ->
  fst (parse file_path f) = None.
Proof.
  intros H.
  pose proof (loop_outside_section existing_aliases existing_zones _ [] H) as Hl.
  fold switchshow_init in Hl. unfold parse_switchshow_from_txt.
  destruct f as [e|lines [e|]]; cbn [lines_read] in Hl; try rewrite Hl;
    reflexivity.
Qed.

End PortTable.



Lemma port_rows_all_give_commands_witness :
  generate_brocade_alias_commands
    [mkPortRecord "3" "Host1" "10:00:00:00:c9:11:22:33" EmptyString;
     mkPortRecord "4" "Port_4" "10:00:00:00:c9:11:22:44" EmptyString]
  = (map (fun r => alicreate (Alias r) (WWPN r))
       [mkPortRecord "3" "Host1" "10:00:00:00:c9:11:22:33" EmptyString;
        mkPortRecord "4" "Port_4" "10:00:00:00:c9:11:22:44" EmptyString], []).
Proof.
  apply (port_rows_all_give_commands
           {[ "10:00:00:00:c9:11:22:33" := "Host1" ]} ∅ "switch.txt"
           (Reads ["Index Port Address Media Speed State Proto";
                   "  3  3  010300  id  N8  Online  FC  F-Port  10:00:00:00:c9:11:22:33";
                   "  4  4  010400  id  N8  Online  FC  F-Port  10:00:00:00:c9:11:22:44"]
                  None)).
  - intros w name Hl. apply lookup_singleton_Some in Hl as [_ <-].
    vm_compute. auto.
  - vm_compute. reflexivity.
Defined.

(** ** No zone, no zone command *)

Section ZoneCommandsMore.

Lemma sorted_keys_nil ks : sorted_keys ks = [] -> ks = [].
Proof.
  destruct ks as [|k ks]; [reflexivity|]. intros H.
  assert (Hin : In k (sorted_keys (k :: ks))) by (apply In_sorted_keys; now left).
  rewrite H in Hin. destruct Hin.
Qed.

(** X15: the generator gives no [zonecreate] command exactly when every record
    has an empty zone name. *)
Theorem zone_commands_empty_iff config_df :
  generate_brocade_zone_commands config_df = [] <->
  (forall r, In r config_df -> Zone_Name r = EmptyString).
Proof.
  rewrite generate_as_groupby. unfold groupby_zone_name. split.
  - intros H r Hr.
    apply map_eq_nil, map_eq_nil, sorted_keys_nil, map_eq_nil in H.
    destruct (Py.truthy (Zone_Name r)) eqn:Ht.
    + assert (Hin : In r (zoned config_df)) by now apply In_zoned.
      rewrite H in Hin. destruct Hin.
    + unfold Py.truthy in Ht. apply negb_false_iff in Ht.
      now destruct (Zone_Name r).
  - intros H.
    assert (Hz : zoned config_df = []).
    { unfold zoned. induction config_df as [|r df IH]; [reflexivity|].
      simpl. rewrite (H r) by now left. simpl.
      apply IH. intros r' Hr'. apply H. now right. }
    now rewrite Hz.
Qed.

End ZoneCommandsMore.

(** ** The whole run *)

Section Main.

(** X16: whenever [main] exports a report, the port table had at least one row
    and the commands printed and written are never missing: one [alicreate]
    for each row of the report, with the row's alias and WWPN and in row
    order, followed by the [zonecreate] commands of the report's rows.  The
    aliases come from the alias parser, which stores no empty name, so no
    row is skipped. *)
Theorem main_commands source df :
  report (main source) = Some df ->
  df <> [] /\
  switch_commands (main source)
  = Some (map (fun r => alicreate (Alias r) (WWPN r)) df
          ++ generate_brocade_zone_commands df).
Proof.
  unfold main.
  destruct (fst (parse_switchshow_from_txt (fst (parse_aliases_from_txt source))
                   (fst (parse_zones_from_txt source))
                   "bq_3F_switch_info.txt" source)) as [df'|] eqn:Hp;
    cbn [report switch_commands]; [|discriminate].
  intros [= ->].
  destruct (parse_rows_well_formed _ _ _ _ _ Hp) as [Hne _].
  split; [exact Hne|].
  rewrite (rows_all_give_commands _ _ _ _ _
             (fun w name H => proj2 (alias_map_clean source w name H)) Hp).
  cbn [fst]. destruct df as [|r df]; [congruence|reflexivity].
Qed.

(** X17: without a header line in the source file, or without the file, [main]
    prints and writes no command and exports no report. *)
Theorem main_without_header source :
  forallb (fun l => negb (is_header_line l)) (lines_read source) = true ->
  main source = {| switch_commands := None; report := None |}.
Proof.
  intros H. unfold main. now rewrite parse_without_header.
Qed.

End Main.

Lemma main_commands_witness :
  let df := [mkPortRecord "3" "Host1" "10:00:00:00:c9:11:22:33" "Zone1";
             mkPortRecord "4" "Port_4" "10:00:00:00:c9:11:22:44" EmptyString] in
  df <> [] /\
  switch_commands
    (main (Reads ["alias: Host1"; "   10:00:00:00:c9:11:22:33";
                  "Defined configuration:"; "zone: Zone1"; "  Host1";
                  "Index Port Address Media Speed State Proto";
                  "  3  3  010300  id  N8  Online  FC  F-Port  10:00:00:00:c9:11:22:33";
                  "  4  4  010400  id  N8  Online  FC  F-Port  10:00:00:00:c9:11:22:44";
                  "sw1:admin> "] None))
  = Some (map (fun r => alicreate (Alias r) (WWPN r)) df
          ++ generate_brocade_zone_commands df).
Proof.
  apply (main_commands
           (Reads ["alias: Host1"; "   10:00:00:00:c9:11:22:33";
                   "Defined configuration:"; "zone: Zone1"; "  Host1";
                   "Index Port Address Media Speed State Proto";
                   "  3  3  010300  id  N8  Online  FC  F-Port  10:00:00:00:c9:11:22:33";
                   "  4  4  010400  id  N8  Online  FC  F-Port  10:00:00:00:c9:11:22:44";
                   "sw1:admin> "] None)).
  vm_compute. reflexivity.
Defined.

Lemma main_without_header_witness :
  main (Reads ["alias: Host1"; "   10:00:00:00:c9:11:22:33";
               "  3  3  010300  id  N8  Online  FC  F-Port  10:00:00:00:c9:11:22:33"]
              None)
  = {| switch_commands := None; report := None |}.
Proof.
  apply (main_without_header
           (Reads ["alias: Host1"; "   10:00:00:00:c9:11:22:33";
                   "  3  3  010300  id  N8  Online  FC  F-Port  10:00:00:00:c9:11:22:33"]
                  None)).
  vm_compute. reflexivity.
Defined.
